(** * devtalesBackend: the story server, the legacy story router and the OTP mailer

    A shallow embedding of the Express handlers of the repository and the
    properties its specification states about them.

    - The main server (schemas, [syncUser], the story and profile routes).
    - [routes/stories.js] over [models/Story.js] (module [Legacy]).
    - [mail-server.js] (module [Otp]).

    MongoDB collections are finite maps from [_id] to document, the OTP
    [Map] is a finite map from email to entry, JavaScript arrays are lists.
    External collaborators (identity provider, media host, clock, ObjectId
    generator) are inputs of the handlers. *)

From Stdlib Require Import ZArith Ascii String List Sorted Permutation.
From stdpp Require Import base decidable option list sorting gmap strings pretty fin_maps.

Local Open Scope Z_scope.
Local Open Scope string_scope.

(** ** JavaScript values and operators used by the handlers *)

Module Js.

(** A value that is a string, or [null]/[undefined] ([None]). *)
Definition truthy (v : option string) : bool :=
  match v with
  | Some s => negb (String.eqb s "")
  | None => false
  end.

(** [a || b]. *)
Definition or (a b : option string) : option string :=
  if truthy a then a else b.

(** [a || b] where [b] is known to be a string. *)
Definition or_str (a : option string) (b : string) : string :=
  match a with
  | Some s => if String.eqb s "" then b else s
  | None => b
  end.

(** [ToString] of a string-or-null operand of [+]. *)
Definition to_string (v : option string) : string :=
  match v with
  | Some s => s
  | None => "null"
  end.

(** [Array.prototype.indexOf]: first index holding [x], or [-1]. *)
Fixpoint indexOf_from (i : Z) (x : string) (arr : list string) : Z :=
  match arr with
  | [] => -1
  | y :: rest => if decide (y = x) then i else indexOf_from (i + 1) x rest
  end.

Definition indexOf (arr : list string) (x : string) : Z :=
  indexOf_from 0 x arr.

(** [arr.splice(start, 1)] for [start >= 0]: drops the element at
    [start], and nothing when [start] is past the end. *)
Definition splice1 (arr : list string) (start : Z) : list string :=
  delete (Z.to_nat start) arr.

(** [arr.push(x)]. *)
Definition push {A} (arr : list A) (x : A) : list A := arr ++ [x].

End Js.

(** ** Schemas of the main server *)

(** A MongoDB ObjectId is a number [N]; [toString] is injective, so
    comparing the strings is comparing the ids. *)

Record User := mkUser {
  clerkId : string;
  username : string;
  email : option string;
  u_imageUrl : option string;
  bio : string;
  u_createdAt : Z;
  u_updatedAt : Z
}.

Record Comment := mkComment {
  c_id : N;
  userId : N;
  c_username : string;
  c_content : string;
  c_createdAt : Z
}.

(** A story document: the paths [storySchema] declares. The version key
    [__v] that Mongoose keeps beside them is not a path of the schema and
    is not part of the embedding. *)
Record Story := mkStory {
  title : string;
  content : string;
  category : string;
  authorId : N;
  author : string;
  authorImage : option string;
  imageUrl : option string;
  audioUrl : option string;
  videoUrl : option string;
  likes : list string;
  bookmarks : list string;
  comments : list Comment;
  createdAt : Z;
  updatedAt : Z
}.

(** The two collections, keyed by [_id]. *)
Record Db := mkDb {
  users : gmap N User;
  stories : gmap N Story
}.

Definition set_likes (s : Story) (l : list string) : Story :=
  mkStory (title s) (content s) (category s) (authorId s) (author s)
    (authorImage s) (imageUrl s) (audioUrl s) (videoUrl s)
    l (bookmarks s) (comments s) (createdAt s) (updatedAt s).

Definition set_bookmarks (s : Story) (l : list string) : Story :=
  mkStory (title s) (content s) (category s) (authorId s) (author s)
    (authorImage s) (imageUrl s) (audioUrl s) (videoUrl s)
    (likes s) l (comments s) (createdAt s) (updatedAt s).

Definition set_comments (s : Story) (l : list Comment) : Story :=
  mkStory (title s) (content s) (category s) (authorId s) (author s)
    (authorImage s) (imageUrl s) (audioUrl s) (videoUrl s)
    (likes s) (bookmarks s) l (createdAt s) (updatedAt s).

Definition set_stories (db : Db) (m : gmap N Story) : Db :=
  mkDb (users db) m.

Definition set_users (db : Db) (m : gmap N User) : Db :=
  mkDb m (stories db).

(** ** Requests and responses *)

Record File := mkFile {
  originalname : string;
  buffer : string
}.

(** [req.files] after [upload.fields]. *)
Record Files := mkFiles {
  image : option File;
  audio : option File;
  video : option File
}.

Record Request := mkRequest {
  auth_userId : option string;          (* req.auth.userId *)
  req_user : option (N * User);         (* req.user, attached by syncUser *)
  p_id : N;                             (* :id and :storyId *)
  p_commentId : N;                      (* :commentId *)
  p_clerkId : string;                   (* :clerkId *)
  b_title : option string;
  b_content : option string;
  b_category : option string;
  b_username : option string;
  b_bio : option string;
  files : Files;
  file : option File;
  now : Z;                              (* Date.now() *)
  new_id : N                            (* the ObjectId a new document gets *)
}.

(** A story as the routes send it: the stored document with the author
    name, author image and comment user names resolved against [User]. *)
Record StoryJson := mkStoryJson {
  j_id : N;
  j_doc : Story
}.

(** The body of an answer. [JError msg] is the JSON [{ error: msg }];
    where a [catch] builds the message as a fixed text followed by
    [err.message], the embedding keeps the fixed text, the message of the
    caught error being outside it. [ErrorPage] is the HTML page of
    Express's default error handler. *)
Inductive Body :=
| JError (msg : string)
| JStory (s : StoryJson)
| JStories (l : list StoryJson)
| JUser (u : User)
| JEmpty
| ErrorPage.

Record Response := mkResponse {
  status : Z;
  body : Body
}.

Definition with_user (req : Request) (u : N * User) : Request :=
  mkRequest (auth_userId req) (Some u) (p_id req) (p_commentId req)
    (p_clerkId req) (b_title req) (b_content req) (b_category req)
    (b_username req) (b_bio req) (files req) (file req) (now req) (new_id req).

(** ** Formatting: [populate] and the author fall-backs *)

Definition format_comment (us : gmap N User) (c : Comment) : Comment :=
  mkComment (c_id c) (userId c)
    (match us !! userId c with
     | Some u => username u
     | None => "Unknown"
     end)
    (c_content c) (c_createdAt c).

Definition format_story (us : gmap N User) (id : N) (s : Story) : StoryJson :=
  mkStoryJson id
    (mkStory (title s) (content s) (category s) (authorId s)
       (match us !! authorId s with
        | Some u => username u
        | None => "Unknown"
        end)
       (match us !! authorId s with
        | Some u => u_imageUrl u
        | None => Some ""
        end)
       (imageUrl s) (audioUrl s) (videoUrl s)
       (likes s) (bookmarks s)
       (map (format_comment us) (comments s))
       (createdAt s) (updatedAt s)).

(** [Story.findById(id).populate(..)] followed by the formatting; the
    handlers call it on a document they have just saved. *)
Definition send_story (code : Z) (db : Db) (id : N) : Response :=
  match stories db !! id with
  | Some s => mkResponse code (JStory (format_story (users db) id s))
  | None => mkResponse 500 (JError "Cannot read properties of null")
  end.

(** ** Engagement routes *)

(** The flip shared by the like and the bookmark route. *)
Definition toggle (arr : list string) (clerkUserId : string) : list string :=
  let index := Js.indexOf arr clerkUserId in
  if decide (index > -1) then Js.splice1 arr index
  else Js.push arr clerkUserId.

(** [POST /api/stories/:id/like], after the middleware. *)
Definition like_handler (req : Request) (db : Db) : Response * Db :=
  match auth_userId req with
  | None => (mkResponse 500 (JError "Failed to update like status: "), db)
  | Some clerkUserId =>
    match stories db !! p_id req with
    | None => (mkResponse 404 (JError "Story not found"), db)
    | Some story =>
      let story' := set_likes story (toggle (likes story) clerkUserId) in
      let db' := set_stories db (<[p_id req := story']> (stories db)) in
      (send_story 200 db' (p_id req), db')
    end
  end.

(** [POST /api/stories/:id/bookmark], after the middleware. *)
Definition bookmark_handler (req : Request) (db : Db) : Response * Db :=
  match auth_userId req with
  | None => (mkResponse 500 (JError "Failed to update bookmark status: "), db)
  | Some clerkUserId =>
    match stories db !! p_id req with
    | None => (mkResponse 404 (JError "Story not found"), db)
    | Some story =>
      let story' := set_bookmarks story (toggle (bookmarks story) clerkUserId) in
      let db' := set_stories db (<[p_id req := story']> (stories db)) in
      (send_story 200 db' (p_id req), db')
    end
  end.

(** ** External collaborators *)

(** What the identity provider knows about a user. *)
Record ClerkUser := mkClerkUser {
  cu_id : string;
  cu_username : option string;
  firstName : option string;
  lastName : option string;
  emailAddresses : list string;
  cu_imageUrl : option string
}.

Inductive Fetched :=
| Threw
| Null
| Got (u : ClerkUser).

Record Env := mkEnv {
  getUser : string -> Fetched;            (* global.Clerk.users.getUser *)
  deleteUser : string -> bool;            (* global.Clerk.users.deleteUser *)
  uploadToImageKit : File -> string -> option string
}.

(** ** Identity sync *)

(** [User.findOne({ clerkId })]. *)
Definition findOne_clerkId (us : gmap N User) (cid : string) : option (N * User) :=
  head (filter (fun p : N * User => clerkId p.2 = cid) (map_to_list us)).

(** The unique indexes of [userSchema] ([clerkId], and the sparse ones on
    [username] and [email]): [save] of document [id] is refused when
    another document holds one of its keys. *)
Definition index_clash (id : N) (u : User) (p : N * User) : bool :=
  negb (N.eqb p.1 id) &&
  (String.eqb (clerkId p.2) (clerkId u)
   || String.eqb (username p.2) (username u)
   || match email p.2, email u with
      | Some a, Some b => String.eqb a b
      | _, _ => false
      end).

Definition save_user (us : gmap N User) (id : N) (u : User) : option (gmap N User) :=
  if existsb (index_clash id u) (map_to_list us) then None
  else Some (<[id := u]> us).

(** The name part of the provider's profile:
    [username || firstName + ' ' + lastName || fallback]. *)
Definition synced_username (cu : ClerkUser) (fallback : string) : string :=
  Js.or_str
    (Js.or (cu_username cu)
       (Some (Js.to_string (firstName cu) ++ " " ++ Js.to_string (lastName cu))))
    fallback.

(** The answer of [syncUser]'s [catch]: status 500 and a JSON error whose
    text is this prefix followed by the message of the caught error. *)
Definition sync_error : Response :=
  mkResponse 500 (JError "Internal server error during user sync: ").

Definition syncUser (env : Env) (req : Request) (db : Db)
  : Response + Request * Db :=
  match auth_userId req with
  | None => inl (mkResponse 401 (JError "Unauthorized: No user ID provided by Clerk."))
  | Some uid =>
    if String.eqb uid "" then
      inl (mkResponse 401 (JError "Unauthorized: No user ID provided by Clerk."))
    else
      match getUser env uid with
      | Threw => inl sync_error
      | Null => inl (mkResponse 404 (JError "User not found in Clerk."))
      | Got clerkUser =>
        match findOne_clerkId (users db) (cu_id clerkUser) with
        | None =>
          let user :=
            mkUser (cu_id clerkUser)
              (synced_username clerkUser ("user_" ++ cu_id clerkUser))
              (head (emailAddresses clerkUser))
              (cu_imageUrl clerkUser)
              "" (now req) (now req) in
          match users db !! new_id req with
          | Some _ => inl sync_error
          | None =>
            match save_user (users db) (new_id req) user with
            | None => inl sync_error
            | Some us => inr (with_user req (new_id req, user), set_users db us)
            end
          end
        | Some (id, user) =>
          let user' :=
            mkUser (clerkId user)
              (synced_username clerkUser (username user))
              (Js.or (head (emailAddresses clerkUser)) (email user))
              (Js.or (cu_imageUrl clerkUser) (u_imageUrl user))
              (bio user) (u_createdAt user) (now req) in
          match save_user (users db) id user' with
          | None => inl sync_error
          | Some us => inr (with_user req (id, user'), set_users db us)
          end
        end
      end
  end.

(** A route declared with [ClerkExpressRequireAuth(), syncUser, handler].
    Without credentials [ClerkExpressRequireAuth] hands
    [Error('Unauthenticated')] to [next]; the server declares no error
    handler, so Express's default one answers 500 with its error page. *)
Definition protected (env : Env) (handler : Request -> Db -> Response * Db)
    (req : Request) (db : Db) : Response * Db :=
  match auth_userId req with
  | None => (mkResponse 500 ErrorPage, db)
  | Some _ =>
    match syncUser env req db with
    | inl res => (res, db)
    | inr (req', db') => handler req' db'
    end
  end.

(** ** Story routes *)

(** Newest first: the order of [.sort({ createdAt: -1 })]. *)
Definition newer_first (a b : N * Story) : Prop :=
  createdAt b.2 <= createdAt a.2.

#[global] Instance newer_first_dec a b : Decision (newer_first a b).
Proof. unfold newer_first. apply _. Defined.

(** [Story.find(..).sort({ createdAt: -1 })] on the documents a query
    selected. *)
Definition sort_createdAt_desc (docs : list (N * Story)) : list (N * Story) :=
  merge_sort newer_first docs.

Definition format_all (us : gmap N User) (docs : list (N * Story)) : list StoryJson :=
  map (fun p : N * Story => format_story us p.1 p.2) docs.

(** [GET /api/stories]. *)
Definition list_handler (req : Request) (db : Db) : Response * Db :=
  let found := sort_createdAt_desc (map_to_list (stories db)) in
  (mkResponse 200 (JStories (format_all (users db) found)), db).

(** [GET /api/stories/user/:clerkId], after the middleware. *)
Definition user_stories_handler (req : Request) (db : Db) : Response * Db :=
  match findOne_clerkId (users db) (p_clerkId req) with
  | None => (mkResponse 404 (JError "User not found"), db)
  | Some (uid, _) =>
    let found :=
      sort_createdAt_desc
        (filter (fun p : N * Story => authorId p.2 = uid)
           (map_to_list (stories db))) in
    (mkResponse 200 (JStories (format_all (users db) found)), db)
  end.

(** [GET /api/stories/bookmarked], after the middleware. *)
Definition bookmarked_handler (req : Request) (db : Db) : Response * Db :=
  match req_user req with
  | None => (mkResponse 404 (JError "User not found"), db)
  | Some (_, user) =>
    let found :=
      sort_createdAt_desc
        (filter (fun p : N * Story => clerkId user ∈ bookmarks p.2)
           (map_to_list (stories db))) in
    (mkResponse 200 (JStories (format_all (users db) found)), db)
  end.

(** One optional attachment: [None] when the upload is rejected, the old
    value when no file came, the new URL otherwise. *)
Definition upload_field (env : Env) (f : option File) (folder : string)
    (old : option string) : option (option string) :=
  match f with
  | None => Some old
  | Some file =>
    match uploadToImageKit env file folder with
    | Some url => Some (Some url)
    | None => None
    end
  end.

(** The three attachments in the order the handlers upload them. *)
Definition upload_media (env : Env) (fs : Files) (old : option string * option string * option string)
  : option (option string * option string * option string) :=
  match upload_field env (image fs) "story-images" old.1.1 with
  | None => None
  | Some i =>
    match upload_field env (audio fs) "story-audio" old.1.2 with
    | None => None
    | Some a =>
      match upload_field env (video fs) "story-videos" old.2 with
      | None => None
      | Some v => Some (i, a, v)
      end
    end
  end.

(** [POST /api/stories], after the middleware. *)
Definition create_handler (env : Env) (req : Request) (db : Db) : Response * Db :=
  let failed := (mkResponse 500 (JError "Failed to create story: "), db) in
  match b_title req, b_content req, b_category req with
  | Some t, Some c, Some g =>
    if String.eqb t "" || String.eqb c "" || String.eqb g "" then
      (mkResponse 400 (JError "Title, content, and category are required."), db)
    else
      match upload_media env (files req) (None, None, None) with
      | None => failed
      | Some (i, a, v) =>
        match req_user req with
        | None => failed
        | Some (uid, user) =>
          let newStory :=
            mkStory t c g uid (username user) (u_imageUrl user) i a v
              [] [] [] (now req) (now req) in
          match stories db !! new_id req with
          | Some _ => failed
          | None =>
            let db' := set_stories db (<[new_id req := newStory]> (stories db)) in
            (send_story 201 db' (new_id req), db')
          end
        end
      end
  | _, _, _ =>
    (mkResponse 400 (JError "Title, content, and category are required."), db)
  end.

(** [PUT /api/stories/:id], after the middleware. *)
Definition update_handler (env : Env) (req : Request) (db : Db) : Response * Db :=
  let failed := (mkResponse 500 (JError "Failed to update story: "), db) in
  match stories db !! p_id req with
  | None => (mkResponse 404 (JError "Story not found"), db)
  | Some story =>
    match req_user req with
    | None => failed
    | Some (uid, _) =>
      if negb (N.eqb (authorId story) uid) then
        (mkResponse 403 (JError "Unauthorized: You can only edit your own stories."), db)
      else
        match upload_media env (files req)
                (imageUrl story, audioUrl story, videoUrl story) with
        | None => failed
        | Some (i, a, v) =>
          let story' :=
            mkStory (Js.or_str (b_title req) (title story))
              (Js.or_str (b_content req) (content story))
              (Js.or_str (b_category req) (category story))
              (authorId story) (author story) (authorImage story)
              i a v (likes story) (bookmarks story) (comments story)
              (createdAt story) (now req) in
          let db' := set_stories db (<[p_id req := story']> (stories db)) in
          (send_story 200 db' (p_id req), db')
        end
    end
  end.

(** [DELETE /api/stories/:id], after the middleware. *)
Definition delete_handler (req : Request) (db : Db) : Response * Db :=
  match stories db !! p_id req with
  | None => (mkResponse 404 (JError "Story not found"), db)
  | Some story =>
    match req_user req with
    | None => (mkResponse 500 (JError "Failed to delete story: "), db)
    | Some (uid, _) =>
      if negb (N.eqb (authorId story) uid) then
        (mkResponse 403 (JError "Unauthorized: You can only delete your own stories."), db)
      else
        (mkResponse 204 JEmpty, set_stories db (delete (p_id req) (stories db)))
    end
  end.

(** [POST /api/stories/:id/comment], after the middleware. *)
Definition comment_handler (req : Request) (db : Db) : Response * Db :=
  match req_user req with
  | None => (mkResponse 500 (JError "Failed to add comment: "), db)
  | Some (uid, user) =>
    if negb (Js.truthy (b_content req)) then
      (mkResponse 400 (JError "Comment content cannot be empty."), db)
    else
      match stories db !! p_id req with
      | None => (mkResponse 404 (JError "Story not found"), db)
      | Some story =>
        let comment :=
          mkComment (new_id req) uid (username user)
            (Js.to_string (b_content req)) (now req) in
        let story' := set_comments story (Js.push (comments story) comment) in
        let db' := set_stories db (<[p_id req := story']> (stories db)) in
        (send_story 201 db' (p_id req), db')
      end
  end.

(** [story.comments.id(commentId)]: the first sub-document with that [_id]. *)
Definition comments_id (cs : list Comment) (commentId : N) : option Comment :=
  head (filter (fun c : Comment => c_id c = commentId) cs).

(** [story.comments.pull(commentId)]: drops every sub-document equal to
    the id. *)
Definition comments_pull (cs : list Comment) (commentId : N) : list Comment :=
  filter (fun c : Comment => c_id c ≠ commentId) cs.

(** [DELETE /api/stories/:storyId/comment/:commentId], after the middleware. *)
Definition delete_comment_handler (req : Request) (db : Db) : Response * Db :=
  match req_user req with
  | None => (mkResponse 500 (JError "Failed to delete comment: "), db)
  | Some (uid, _) =>
    match stories db !! p_id req with
    | None => (mkResponse 404 (JError "Story not found."), db)
    | Some story =>
      match comments_id (comments story) (p_commentId req) with
      | None => (mkResponse 404 (JError "Comment not found."), db)
      | Some comment =>
        if negb (N.eqb (userId comment) uid) then
          (mkResponse 403 (JError "Unauthorized: You can only delete your own comments."), db)
        else
          let story' :=
            set_comments story (comments_pull (comments story) (p_commentId req)) in
          let db' := set_stories db (<[p_id req := story']> (stories db)) in
          (send_story 200 db' (p_id req), db')
      end
    end
  end.

(** ** Profile routes *)

(** [GET /api/users/:clerkId]. *)
Definition get_user_handler (req : Request) (db : Db) : Response * Db :=
  match findOne_clerkId (users db) (p_clerkId req) with
  | None => (mkResponse 404 (JError "User not found"), db)
  | Some (_, user) => (mkResponse 200 (JUser user), db)
  end.

(** [PUT /api/users/:id], after the middleware; [:id] is a Clerk id. *)
Definition update_user_handler (env : Env) (req : Request) (db : Db) : Response * Db :=
  let failed := (mkResponse 500 (JError "Failed to update profile: "), db) in
  match req_user req with
  | None => failed
  | Some (_, ru) =>
    if negb (String.eqb (clerkId ru) (p_clerkId req)) then
      (mkResponse 403 (JError "Unauthorized: You can only edit your own profile"), db)
    else
      match upload_field env (file req) "profile-images" None with
      | None => failed
      | Some img =>
        if negb (Js.truthy (b_username req)) && negb (Js.truthy (b_bio req))
           && negb (bool_decide (is_Some (file req))) then
          (mkResponse 400 (JError "No update data provided"), db)
        else
          match findOne_clerkId (users db) (p_clerkId req) with
          | None => (mkResponse 404 (JError "User not found"), db)
          | Some (id, user) =>
            let user' :=
              mkUser (clerkId user)
                (Js.or_str (b_username req) (username user))
                (email user)
                (match img with Some url => Some url | None => u_imageUrl user end)
                (Js.or_str (b_bio req) (bio user))
                (u_createdAt user) (now req) in
            match save_user (users db) id user' with
            | None => failed
            | Some us => (mkResponse 200 (JUser user'), set_users db us)
            end
          end
      end
  end.

(** The filter of the [updateMany] of the cascade:
    [{ $or: [{ likes }, { bookmarks }, { 'comments.userId' }] }]. *)
Definition references (cid : string) (uid : N) (s : Story) : bool :=
  bool_decide (cid ∈ likes s)
  || bool_decide (cid ∈ bookmarks s)
  || existsb (fun c => N.eqb (userId c) uid) (comments s).

(** Its update: [{ $pull: { likes, bookmarks, comments: { userId } } }]. *)
Definition pull_user (cid : string) (uid : N) (s : Story) : Story :=
  mkStory (title s) (content s) (category s) (authorId s) (author s)
    (authorImage s) (imageUrl s) (audioUrl s) (videoUrl s)
    (filter (fun x => x ≠ cid) (likes s))
    (filter (fun x => x ≠ cid) (bookmarks s))
    (filter (fun c => userId c ≠ uid) (comments s))
    (createdAt s) (updatedAt s).

(** [Story.deleteMany({ authorId })]. *)
Definition deleteMany_author (uid : N) (m : gmap N Story) : gmap N Story :=
  filter (fun p : N * Story => authorId p.2 ≠ uid) m.

(** [Story.updateMany(filter, { $pull })]. *)
Definition updateMany_pull (cid : string) (uid : N) (m : gmap N Story) : gmap N Story :=
  (fun s => if references cid uid s then pull_user cid uid s else s) <$> m.

(** [DELETE /api/users/:clerkId], after the middleware. The writes to the
    two collections stay when the identity provider refuses the final
    deletion. *)
Definition delete_user_handler (env : Env) (req : Request) (db : Db) : Response * Db :=
  match req_user req with
  | None => (mkResponse 500 (JError "Failed to delete profile: "), db)
  | Some (_, ru) =>
    if negb (String.eqb (clerkId ru) (p_clerkId req)) then
      (mkResponse 403 (JError "Unauthorized: You can only delete your own profile"), db)
    else
      match findOne_clerkId (users db) (p_clerkId req) with
      | None => (mkResponse 404 (JError "User not found in database"), db)
      | Some (uid, user) =>
        let kept := deleteMany_author uid (stories db) in
        let cleaned := updateMany_pull (p_clerkId req) uid kept in
        let db' := mkDb (delete uid (users db)) cleaned in
        if deleteUser env (p_clerkId req) then (mkResponse 204 JEmpty, db')
        else (mkResponse 500 (JError "Failed to delete profile: "), db')
      end
  end.

(** ** The routes of the main server *)

Inductive Route :=
| GetStories
| GetUserStories
| PostStory
| PutStory
| DeleteStory
| PostLike
| PostBookmark
| PostComment
| DeleteComment
| GetUser
| GetBookmarked
| PutUser
| DeleteUser.

(** One request served to completion. *)
Definition serve (env : Env) (r : Route) (req : Request) (db : Db) : Response * Db :=
  match r with
  | GetStories => list_handler req db
  | GetUserStories => protected env user_stories_handler req db
  | PostStory => protected env (create_handler env) req db
  | PutStory => protected env (update_handler env) req db
  | DeleteStory => protected env delete_handler req db
  | PostLike => protected env like_handler req db
  | PostBookmark => protected env bookmark_handler req db
  | PostComment => protected env comment_handler req db
  | DeleteComment => protected env delete_comment_handler req db
  | GetUser => get_user_handler req db
  | GetBookmarked => protected env bookmarked_handler req db
  | PutUser => protected env (update_user_handler env) req db
  | DeleteUser => protected env (delete_user_handler env) req db
  end.

(** The like and bookmark arrays of every stored story hold each id at
    most once. *)
Definition no_duplicates (db : Db) : Prop :=
  map_Forall (fun _ s => NoDup (likes s) /\ NoDup (bookmarks s)) (stories db).

(** ** The server as a sequential machine *)

Definition with_new_id (req : Request) (id : N) : Request :=
  mkRequest (auth_userId req) (req_user req) (p_id req) (p_commentId req)
    (p_clerkId req) (b_title req) (b_content req) (b_category req)
    (b_username req) (b_bio req) (files req) (file req) (now req) id.

(** The database together with the ObjectId generator, which never hands
    out an id twice: a counter stands for it. *)
Record Server := mkServer {
  database : Db;
  next_id : N
}.

(** One request, served to completion with a fresh ObjectId at hand. *)
Definition handle (env : Env) (r : Route) (req : Request) (srv : Server)
  : Response * Server :=
  let out := serve env r (with_new_id req (next_id srv)) (database srv) in
  (out.1, mkServer out.2 (N.succ (next_id srv))).

(** The states a server reaches from empty collections by serving requests
    one after another. *)
Inductive reachable : Server -> Prop :=
| reachable_start n : reachable (mkServer (mkDb ∅ ∅) n)
| reachable_handle env r req srv :
    reachable srv -> reachable (handle env r req srv).2.

(** A comment list whose ids are pairwise distinct and were all handed
    out before [n]. *)
Definition fresh_list (n : N) (cs : list Comment) : Prop :=
  NoDup (c_id <$> cs) /\ Forall (fun c => (c_id c < n)%N) cs.

(** The embedded comments of every story carry pairwise distinct ids, all
    handed out already. *)
Definition comment_ids_fresh (srv : Server) : Prop :=
  map_Forall (fun _ s => fresh_list (next_id srv) (comments s))
    (stories (database srv)).

(** ** The legacy story router: [routes/stories.js] over [models/Story.js] *)

Module Legacy.

Record Story := mkStory {
  title : string;
  content : string;
  imageUrl : string;
  category : string;
  author : string;
  createdAt : Z
}.

(** The collection is the list of its documents in natural (storage)
    order, the order a [find()] without [sort] yields them in. *)
Definition find (collection : list Story) : list Story := collection.

Record Response := mkResponse {
  status : Z;
  body : list Story
}.

(** [router.get('/')]. *)
Definition get_handler (collection : list Story) : Response :=
  let stories := find collection in
  mkResponse 200 stories.

Definition newest_first (l : list Story) : Prop :=
  StronglySorted (fun a b => createdAt b <= createdAt a) l.

End Legacy.

(** ** The OTP mailer: [mail-server.js] *)

Module Otp.

(** A JSON value of a request body; [Object] is any array or object. *)
Inductive Value :=
| Undefined
| Null
| Bool (b : bool)
| Num (n : Z)
| Str (s : string)
| Object.

#[global] Instance Value_eq_dec : EqDecision Value.
Proof. solve_decision. Defined.

Record Entry := mkEntry {
  otp : string;
  expires : Z
}.

(** [stored.otp === otp]: the stored code is a string. *)
Definition strict_eq (stored : string) (v : Value) : bool :=
  match v with
  | Str s => String.eqb stored s
  | _ => false
  end.

(** [generateOtp]: [r] is the integer by which the floored sum exceeds
    100000, that is [Math.floor(100000 + Math.random() * 900000)] is
    [100000 + r]; the floating-point sum and its rounding are outside the
    embedding, [toString] is what is modelled. *)
Definition generateOtp (r : Z) : string := pretty (100000 + r).

Inductive Reply :=
| Success
| Failure (code : Z) (error : string).

(** [POST /send-otp]: [r] is the argument of [generateOtp], [sent]
    whether the mail relay accepted the message. *)
Definition send_otp (r : Z) (now : Z) (sent : bool) (email : string)
    (otpStore : gmap string Entry) : Reply * gmap string Entry :=
  let otp := generateOtp r in
  let otpStore' := <[email := mkEntry otp (now + 5 * 60 * 1000)]> otpStore in
  if sent then (Success, otpStore')
  else (Failure 500 "Failed to send OTP", otpStore').

(** [POST /verify-otp]. *)
Definition verify_otp (now : Z) (email : string) (otp : Value)
    (otpStore : gmap string Entry) : Reply * gmap string Entry :=
  match otpStore !! email with
  | None => (Failure 400 "No OTP found for this email", otpStore)
  | Some stored =>
    if decide (now > expires stored) then
      (Failure 400 "OTP expired", delete email otpStore)
    else if strict_eq (Otp.otp stored) otp then
      (Success, delete email otpStore)
    else
      (Failure 400 "Invalid OTP", otpStore)
  end.

(** A run of [send-otp] requests, each given by its email, random
    draw, time, and whether the relay took the message. *)
Definition send_all (sends : list (string * Z * Z * bool))
    (otpStore : gmap string Entry) : gmap string Entry :=
  foldl (fun st '(email, r, t, sent) => (send_otp r t sent email st).2)
    otpStore sends.

End Otp.

(** ** The progress router: [routes/progress.js] *)

Module Progress.

(** Modelled from the spec: the [Progress] model ([models/Progress.js]) is
    not among the sources. The spec gives a document an owning user, a
    story, an opaque progress value and an updated timestamp; the handler
    names the fields [userId], [storyId], [progress] and [updatedAt]. The
    value type [V] is left open. *)
Record Doc (V : Type) := mkDoc {
  _id : N;
  userId : string;
  storyId : string;
  progress : V;
  updatedAt : Z
}.

Arguments mkDoc {V}.
Arguments _id {V}.
Arguments userId {V}.
Arguments storyId {V}.
Arguments progress {V}.
Arguments updatedAt {V}.

Inductive Reply (V : Type) :=
| Json (d : Doc V)
| JsonList (l : list (Doc V))
| ServerError.

Arguments Json {V}.
Arguments JsonList {V}.
Arguments ServerError {V}.

(** The collection is the list of its documents in storage order.
    [Progress.find({ userId })]. *)
Definition find_user {V} (uid : string) (coll : list (Doc V)) : list (Doc V) :=
  filter (fun d => userId d = uid) coll.

(** [Progress.findOne({ userId, storyId })]: position and document of
    the first match. *)
Definition findOne {V} (uid sid : string) (coll : list (Doc V))
  : option (nat * Doc V) :=
  list_find (fun d => userId d = uid /\ storyId d = sid) coll.

(** [router.get('/:userId')], after the auth middleware. *)
Definition get_handler {V} (userId : string) (coll : list (Doc V))
  : Reply V * list (Doc V) :=
  (JsonList (find_user userId coll), coll).

(** [router.post('/')], after the auth middleware: [user_id] is
    [req.user.id], [new_id] the ObjectId a new document gets, [now] the
    clock. A new document whose [_id] is taken is refused by the
    collection, which the [catch] answers with 500. The [updatedAt] of a
    new document is the schema's default, taken to be the clock as in the
    schemas the repository does have. *)
Definition post_handler {V} (user_id : string) (b_storyId : string)
    (b_progress : V) (now : Z) (new_id : N) (coll : list (Doc V))
  : Reply V * list (Doc V) :=
  match findOne user_id b_storyId coll with
  | Some (i, existingProgress) =>
    let saved :=
      mkDoc (_id existingProgress) (userId existingProgress)
        (storyId existingProgress) b_progress now in
    (Json saved, <[i := saved]> coll)
  | None =>
    let newProgress := mkDoc new_id user_id b_storyId b_progress now in
    if bool_decide (new_id ∈ _id <$> coll) then (ServerError, coll)
    else (Json newProgress, Js.push coll newProgress)
  end.

(** No two documents are about the same user and story. *)
Definition one_per_pair {V} (coll : list (Doc V)) : Prop :=
  NoDup ((fun d => (userId d, storyId d)) <$> coll).

End Progress.

(** ** Statement vocabulary *)

(** The two engagement arrays and their routes. *)
Inductive Engagement := Like | Bookmark.

Definition engagement_handler (e : Engagement) : Request -> Db -> Response * Db :=
  match e with
  | Like => like_handler
  | Bookmark => bookmark_handler
  end.

Definition engaged (e : Engagement) (s : Story) : list string :=
  match e with
  | Like => likes s
  | Bookmark => bookmarks s
  end.

(** What the claim on toggling says of story [s] of [db], for two
    requests [req] and [req2] of caller [a] in a row: the first flips the
    caller's membership in the array and changes no other membership, the
    second gives back the original membership. *)
Definition flips_and_restores (e : Engagement) (req req2 : Request)
    (a : string) (db : Db) (s : Story) : Prop :=
  let db1 := (engagement_handler e req db).2 in
  let db2 := (engagement_handler e req2 db1).2 in
  exists s1 s2,
    stories db1 !! p_id req = Some s1 /\
    stories db2 !! p_id req = Some s2 /\
    (a ∈ engaged e s1 <-> a ∉ engaged e s) /\
    (forall b, b ≠ a -> (b ∈ engaged e s1 <-> b ∈ engaged e s)) /\
    (forall b, b ∈ engaged e s2 <-> b ∈ engaged e s).

(** The array holds [x] once or not at all. *)
Definition at_most_once (x : string) (arr : list string) : Prop :=
  (length (filter (fun y => y = x) arr) <= 1)%nat.

#[global] Instance at_most_once_dec x arr : Decision (at_most_once x arr).
Proof. unfold at_most_once. apply _. Defined.

(** Every stored field but [likes] agrees. *)
Definition same_but_likes (s s' : Story) : Prop :=
  title s' = title s /\ content s' = content s /\ category s' = category s /\
  authorId s' = authorId s /\ author s' = author s /\
  authorImage s' = authorImage s /\ imageUrl s' = imageUrl s /\
  audioUrl s' = audioUrl s /\ videoUrl s' = videoUrl s /\
  bookmarks s' = bookmarks s /\ comments s' = comments s /\
  createdAt s' = createdAt s /\ updatedAt s' = updatedAt s.

(** Every stored field but [bookmarks] agrees. *)
Definition same_but_bookmarks (s s' : Story) : Prop :=
  title s' = title s /\ content s' = content s /\ category s' = category s /\
  authorId s' = authorId s /\ author s' = author s /\
  authorImage s' = authorImage s /\ imageUrl s' = imageUrl s /\
  audioUrl s' = audioUrl s /\ videoUrl s' = videoUrl s /\
  likes s' = likes s /\ comments s' = comments s /\
  createdAt s' = createdAt s /\ updatedAt s' = updatedAt s.

Definition same_but (e : Engagement) : Story -> Story -> Prop :=
  match e with
  | Like => same_but_likes
  | Bookmark => same_but_bookmarks
  end.

(** Every path of the schema agrees, the arrays element by element and in
    the same order. *)
Definition same_fields (s s' : Story) : Prop :=
  likes s' = likes s /\ same_but_likes s s'.

(** Between [before] and [after] no user document and no other story has
    changed, and story [id] is stored in both with the same schema paths. *)
Definition story_as_before (id : N) (before after : Db) : Prop :=
  users after = users before /\
  (forall id', id' ≠ id -> stories after !! id' = stories before !! id') /\
  exists s s',
    stories before !! id = Some s /\ stories after !! id = Some s' /\
    same_fields s s'.

(** What a request to story [id] may have done to the stories: nothing to
    another story, and to story [id] at most a change of the one array. *)
Definition only_touches (e : Engagement) (id : N) (before after : gmap N Story) : Prop :=
  (forall id', id' ≠ id -> after !! id' = before !! id') /\
  match before !! id with
  | Some s => exists s', after !! id = Some s' /\ same_but e s s'
  | None => after !! id = None
  end.

(** A response list is newest first. *)
Definition json_newest_first (l : list StoryJson) : Prop :=
  StronglySorted (fun a b => createdAt (j_doc b) <= createdAt (j_doc a)) l.



(** A run of [verify-otp] requests for one email, each given by its time
    and the submitted value. *)
Definition verify_all (email : string) (tries : list (Z * Otp.Value))
    (otpStore : gmap string Otp.Entry) : gmap string Otp.Entry :=
  foldl (fun st '(now, v) => (Otp.verify_otp now email v st).2) otpStore tries.

(** The fields a story gets at creation and that say whose it is. *)
Definition same_origin (s s' : Story) : Prop :=
  authorId s' = authorId s /\ author s' = author s /\
  authorImage s' = authorImage s /\ createdAt s' = createdAt s.

(** Every story stored before and after has kept its origin. *)
Definition keeps_origin (before after : gmap N Story) : Prop :=
  forall id s s', before !! id = Some s -> after !! id = Some s' -> same_origin s s'.

(** The author of every story and of every comment is a stored user. *)
Definition story_resolves (us : gmap N User) (s : Story) : Prop :=
  is_Some (us !! authorId s) /\
  Forall (fun c => is_Some (us !! userId c)) (comments s).

Definition refs_resolve (db : Db) : Prop :=
  map_Forall (fun _ s => story_resolves (users db) s) (stories db).

#[global] Instance refs_resolve_dec db : Decision (refs_resolve db).
Proof. unfold refs_resolve, story_resolves. apply _. Defined.

(** A text field after [new || old]: a supplied non-empty value
    replaces, anything else keeps. *)
Definition overwritten (supplied : option string) (old result : string) : Prop :=
  (forall t, supplied = Some t -> t ≠ "" -> result = t) /\
  (supplied = None \/ supplied = Some "" -> result = old).

(** A media URL after the optional upload of [f] to [folder]. *)
Definition replaced (env : Env) (f : option File) (folder : string)
    (old result : option string) : Prop :=
  match f with
  | None => result = old
  | Some file =>
    is_Some result /\ uploadToImageKit env file folder = result
  end.

(** ** Sample data *)

Definition no_files : Files := mkFiles None None None.

Definition alice : User := mkUser "u1" "alice" (Some "alice@example.org") None "" 0 0.
Definition bob : User := mkUser "u2" "bob" None None "" 0 0.

(** A request of [caller], synced as [user], on story [id], comment 50 and
    the caller's own profile. *)
Definition sample_request (caller : option string) (user : option (N * User))
    (id : N) : Request :=
  mkRequest caller user id 50 (default "" caller)
    None None None None None no_files None 1000 100.

(** Alice's story 7, liked, bookmarked and commented by bob, and bob's
    story 8, liked by alice. *)
Definition sample_db2 : Db :=
  mkDb (<[1%N := alice]> (<[2%N := bob]> ∅))
    (<[7%N := mkStory "T" "C" "Myth" 1 "alice" None None None None
                ["u2"; "u1"] ["u2"]
                [mkComment 50 2 "bob" "nice" 20; mkComment 51 1 "alice" "thanks" 21]
                10 10]>
     (<[8%N := mkStory "B" "C" "Epic" 2 "bob" None None None None
                 ["u1"] [] [] 11 11]> ∅)).


(** A story of alice (local id 1). *)
Definition sample_story (ls bs : list string) (cs : list Comment) : Story :=
  mkStory "T" "C" "Myth" 1 "alice" None None None None ls bs cs 10 10.

Definition sample_db (ls bs : list string) (cs : list Comment) : Db :=
  mkDb (<[1%N := alice]> (<[2%N := bob]> ∅)) (<[7%N := sample_story ls bs cs]> ∅).

Definition sample_env : Env :=
  mkEnv (fun _ => Null) (fun _ => true)
    (fun f _ => Some ("https://ik.example/" ++ originalname f)).

(** An identity provider that knows the one user [cu]. *)
Definition clerk_env (cu : ClerkUser) : Env :=
  mkEnv (fun id => if String.eqb id (cu_id cu) then Got cu else Null)
    (fun _ => true)
    (fun f _ => Some ("https://ik.example/" ++ originalname f)).

(** A user who signed up by email only: no username, no name parts. *)
Definition nameless : ClerkUser :=
  mkClerkUser "user_2x" None None None ["x@example.org"] (Some "https://img.example/x").

(** * Properties *)

(** ** [indexOf], [splice] and the flip *)

Section Toggle.

Implicit Types (arr : list string) (x y : string).

Lemma indexOf_from_absent i x arr :
  x ∉ arr -> Js.indexOf_from i x arr = -1.
Proof.
  revert i. induction arr as [|y arr IH]; intros i Hx; simpl; [done|].
  apply not_elem_of_cons in Hx as [Hne Hx].
  case_decide; [congruence | by apply IH].
Qed.

Lemma indexOf_from_first i x arr1 arr2 :
  x ∉ arr1 ->
  Js.indexOf_from i x (arr1 ++ x :: arr2)%list = i + Z.of_nat (length arr1).
Proof.
  revert i. induction arr1 as [|y arr1 IH]; intros i Hx; simpl.
  - case_decide; [lia | done].
  - apply not_elem_of_cons in Hx as [Hne Hx].
    case_decide; [congruence|]. rewrite IH by done. lia.
Qed.

Lemma toggle_absent arr x : x ∉ arr -> toggle arr x = (arr ++ [x])%list.
Proof.
  intros Hx. unfold toggle, Js.indexOf.
  rewrite indexOf_from_absent by done. by case_decide.
Qed.

Lemma toggle_first arr1 arr2 x :
  x ∉ arr1 -> toggle (arr1 ++ x :: arr2)%list x = (arr1 ++ arr2)%list.
Proof.
  intros Hx. unfold toggle, Js.indexOf, Js.splice1.
  rewrite indexOf_from_first by done.
  case_decide; [|lia].
  replace (Z.to_nat (0 + Z.of_nat (length arr1))) with (length arr1) by lia.
  by rewrite delete_middle.
Qed.

(** A present id splits the array at its first occurrence. *)
Lemma first_occurrence arr x :
  x ∈ arr -> exists arr1 arr2, arr = (arr1 ++ x :: arr2)%list /\ x ∉ arr1.
Proof.
  induction arr as [|y arr IH]; intros Hx; [by apply elem_of_nil in Hx|].
  destruct (decide (y = x)) as [->|Hne].
  - exists [], arr. split; [done | apply not_elem_of_nil].
  - apply elem_of_cons in Hx as [Hx|Hx]; [congruence|].
    destruct (IH Hx) as (arr1 & arr2 & -> & Hnot).
    exists (y :: arr1), arr2. split; [done|].
    apply not_elem_of_cons. split; [congruence | done].
Qed.

Lemma toggle_NoDup arr x : NoDup arr -> NoDup (toggle arr x).
Proof.
  intros Hnd. destruct (decide (x ∈ arr)) as [Hx|Hx].
  - destruct (first_occurrence _ _ Hx) as (arr1 & arr2 & -> & Hnot).
    rewrite toggle_first by done.
    apply NoDup_app in Hnd as (H1 & H2 & H3).
    apply NoDup_cons in H3 as [_ H3].
    apply NoDup_app. split_and!; [done | | done].
    intros z Hz Hz'. apply (H2 z Hz). by apply elem_of_cons; right.
  - rewrite toggle_absent by done.
    apply NoDup_app. split_and!; [done | | apply NoDup_singleton].
    intros z Hz Hz'. apply list_elem_of_singleton in Hz'. by subst.
Qed.

Lemma filter_eq_nil arr x : x ∉ arr <-> filter (fun y => y = x) arr = [].
Proof.
  induction arr as [|y arr IH]; [split; [done | intros _; apply not_elem_of_nil]|].
  rewrite filter_cons, not_elem_of_cons.
  destruct (decide (y = x)) as [->|Hne]; [intuition congruence|].
  rewrite <- IH. intuition congruence.
Qed.

(** An id held at most once is not held after its first occurrence. *)
Lemma at_most_once_rest arr1 arr2 x :
  at_most_once x (arr1 ++ x :: arr2)%list -> x ∉ arr2.
Proof.
  unfold at_most_once. rewrite filter_app, filter_cons_True by done.
  rewrite length_app. simpl. intros Hlen.
  apply filter_eq_nil. apply length_zero_iff_nil. lia.
Qed.

Lemma NoDup_at_most_once arr x : NoDup arr -> at_most_once x arr.
Proof.
  unfold at_most_once. induction 1 as [|y arr Hy Hnd IH]; [simpl; lia|].
  rewrite filter_cons. destruct (decide (y = x)) as [->|Hne]; [|done].
  apply filter_eq_nil in Hy. rewrite Hy. simpl. lia.
Qed.

(** On an array that holds [x] at most once the flip changes the
    membership of [x]. *)
Lemma toggle_flips arr x :
  at_most_once x arr -> (x ∈ toggle arr x <-> x ∉ arr).
Proof.
  intros Honce. destruct (decide (x ∈ arr)) as [Hx|Hx].
  - destruct (first_occurrence _ _ Hx) as (arr1 & arr2 & -> & Hnot).
    rewrite toggle_first by done.
    apply at_most_once_rest in Honce.
    split; [|done]. intros [?|?]%elem_of_app; done.
  - rewrite toggle_absent by done. split; [done|].
    intros _. apply elem_of_app. right. by apply list_elem_of_singleton.
Qed.

(** It never changes the membership of another id. *)
Lemma toggle_other arr x y :
  y ≠ x -> (y ∈ toggle arr x <-> y ∈ arr).
Proof.
  intros Hne. destruct (decide (x ∈ arr)) as [Hx|Hx].
  - destruct (first_occurrence _ _ Hx) as (arr1 & arr2 & -> & Hnot).
    rewrite toggle_first by done.
    rewrite !elem_of_app, elem_of_cons. intuition congruence.
  - rewrite toggle_absent by done.
    rewrite elem_of_app, list_elem_of_singleton. intuition congruence.
Qed.

(** The second flip undoes the first, up to the position of [x]. *)
Lemma toggle_twice arr x y :
  at_most_once x arr -> (y ∈ toggle (toggle arr x) x <-> y ∈ arr).
Proof.
  intros Honce. destruct (decide (x ∈ arr)) as [Hx|Hx].
  - destruct (first_occurrence _ _ Hx) as (arr1 & arr2 & -> & Hnot).
    apply at_most_once_rest in Honce.
    rewrite toggle_first by done.
    rewrite toggle_absent by (intros [?|?]%elem_of_app; done).
    rewrite !elem_of_app, list_elem_of_singleton, elem_of_cons. tauto.
  - rewrite (toggle_absent arr x) by done.
    rewrite (toggle_first arr [] x) by done. by rewrite app_nil_r.
Qed.

(** From absent, two flips give back the very array. *)
Lemma toggle_twice_absent arr x :
  x ∉ arr -> toggle (toggle arr x) x = arr.
Proof.
  intros Hx. rewrite (toggle_absent arr x) by done.
  rewrite (toggle_first arr [] x) by done. apply app_nil_r.
Qed.

End Toggle.

(** ** The middleware leaves the stories alone *)

Lemma syncUser_stories env req db req' db' :
  syncUser env req db = inr (req', db') ->
  stories db' = stories db /\ auth_userId req' = auth_userId req /\
  p_id req' = p_id req /\ p_commentId req' = p_commentId req /\
  p_clerkId req' = p_clerkId req /\ new_id req' = new_id req.
Proof.
  unfold syncUser. intros H.
  repeat (match type of H with
          | context [match ?x with _ => _ end] => destruct x eqn:?
          end; try discriminate);
    inversion H; subst; done.
Qed.

(** A protected route either stops in the middleware, with the stories
    as they were, or runs its handler on the same stories. *)
Lemma protected_cases env handler req db :
  (stories (protected env handler req db).2 = stories db) \/
  (exists req' db1, syncUser env req db = inr (req', db1) /\
     protected env handler req db = handler req' db1).
Proof.
  unfold protected. destruct (auth_userId req); [|by left].
  destruct (syncUser env req db) as [res|[req' db1]] eqn:Hs; [by left|].
  right. by exists req', db1.
Qed.

(** ** Engagement: what the two handlers store *)

Lemma engagement_stored e req db a s :
  auth_userId req = Some a ->
  stories db !! p_id req = Some s ->
  exists s',
    (engagement_handler e req db).2
      = set_stories db (<[p_id req := s']> (stories db)) /\
    engaged e s' = toggle (engaged e s) a /\
    match e with
    | Like => same_but_likes s s'
    | Bookmark => same_but_bookmarks s s'
    end.
Proof.
  intros Ha Hs. destruct e; simpl; unfold like_handler, bookmark_handler;
    rewrite Ha, Hs; simpl; eexists; (split; [reflexivity|]);
    (split; [reflexivity|]); repeat split.
Qed.

Lemma engagement_missing e req db :
  stories db !! p_id req = None -> (engagement_handler e req db).2 = db.
Proof.
  intros Hs. destruct e; simpl; unfold like_handler, bookmark_handler;
    rewrite Hs; by destruct (auth_userId req).
Qed.

Lemma engagement_unauthenticated e req db :
  auth_userId req = None -> (engagement_handler e req db).2 = db.
Proof.
  intros Ha. destruct e; simpl; unfold like_handler, bookmark_handler;
    by rewrite Ha.
Qed.

(** ** Toggle-like and toggle-bookmark *)

Lemma engagement_flips e req req2 db a s :
  auth_userId req = Some a ->
  auth_userId req2 = Some a ->
  p_id req2 = p_id req ->
  stories db !! p_id req = Some s ->
  exists s1 s2,
    stories (engagement_handler e req db).2 !! p_id req = Some s1 /\
    stories (engagement_handler e req2 (engagement_handler e req db).2).2
      !! p_id req = Some s2 /\
    engaged e s1 = toggle (engaged e s) a /\
    engaged e s2 = toggle (toggle (engaged e s) a) a.
Proof.
  intros Ha Ha2 Hid Hs.
  destruct (engagement_stored e req db a s Ha Hs) as (s1 & Hdb1 & Hs1 & _).
  assert (Hl1 : stories (engagement_handler e req db).2 !! p_id req = Some s1).
  { rewrite Hdb1. simpl. apply lookup_insert_eq. }
  assert (Hl1' : stories (engagement_handler e req db).2 !! p_id req2 = Some s1)
    by by rewrite Hid.
  destruct (engagement_stored e req2 _ a s1 Ha2 Hl1') as (s2 & Hdb2 & Hs2 & _).
  exists s1, s2. split; [done|]. split.
  { rewrite Hdb2, Hid. simpl. apply lookup_insert_eq. }
  by rewrite Hs2, Hs1.
Qed.

(** For a story whose array holds the caller's id at most once, the
    route flips the caller's membership, changes the membership of no
    other id, and a second request of the same caller gives back the
    original membership. *)
Lemma toggle_flips_at_most_once e req req2 db a s :
  auth_userId req = Some a ->
  auth_userId req2 = Some a ->
  p_id req2 = p_id req ->
  stories db !! p_id req = Some s ->
  at_most_once a (engaged e s) ->
  flips_and_restores e req req2 a db s.
Proof.
  intros Ha Ha2 Hid Hs Honce.
  destruct (engagement_flips e req req2 db a s Ha Ha2 Hid Hs)
    as (s1 & s2 & H1 & H2 & E1 & E2).
  exists s1, s2. split; [done|]. split; [done|]. rewrite E1, E2.
  split; [by apply toggle_flips|].
  split; [intros b Hb; by apply toggle_other | intros b; by apply toggle_twice].
Qed.

(** ** The no-duplicates invariant *)

Lemma no_duplicates_same_stories db db' :
  stories db' = stories db -> no_duplicates db -> no_duplicates db'.
Proof. unfold no_duplicates. by intros ->. Qed.

Lemma no_duplicates_insert db id s :
  no_duplicates db -> NoDup (likes s) -> NoDup (bookmarks s) ->
  no_duplicates (set_stories db (<[id := s]> (stories db))).
Proof.
  unfold no_duplicates. simpl. intros Hdb Hl Hb.
  by apply map_Forall_insert_2.
Qed.

Lemma no_duplicates_delete db id :
  no_duplicates db ->
  no_duplicates (set_stories db (delete id (stories db))).
Proof. unfold no_duplicates. simpl. apply map_Forall_delete. Qed.

Lemma no_duplicates_lookup db id s :
  no_duplicates db -> stories db !! id = Some s ->
  NoDup (likes s) /\ NoDup (bookmarks s).
Proof. intros Hdb Hs. exact (Hdb id s Hs). Qed.

Lemma pull_user_NoDup cid uid s :
  NoDup (likes s) /\ NoDup (bookmarks s) ->
  NoDup (likes (pull_user cid uid s)) /\ NoDup (bookmarks (pull_user cid uid s)).
Proof. intros [Hl Hb]. simpl. split; by apply NoDup_filter. Qed.

Lemma no_duplicates_cascade cid uid us db :
  no_duplicates db ->
  no_duplicates (mkDb us (updateMany_pull cid uid (deleteMany_author uid (stories db)))).
Proof.
  unfold no_duplicates, updateMany_pull, deleteMany_author. simpl.
  intros Hdb id s. rewrite lookup_fmap.
  destruct (filter _ (stories db) !! id) as [s0|] eqn:Hf; [|done].
  apply map_lookup_filter_Some in Hf as [Hs0 _].
  simpl. intros [= <-]. specialize (Hdb id s0 Hs0). simpl in Hdb.
  destruct (references cid uid s0); [by apply pull_user_NoDup | done].
Qed.

(** Case analysis on the branches of a handler. *)
Ltac handler_branches :=
  repeat match goal with
         | |- context [match ?x with _ => _ end] => destruct x eqn:?
         | |- context [if ?b then _ else _] => destruct b eqn:?
         end.

Ltac keep_invariant Hdb :=
  simpl;
  first
    [ exact Hdb
    | apply no_duplicates_delete; exact Hdb
    | apply no_duplicates_cascade; exact Hdb
    | (eapply no_duplicates_same_stories; [|exact Hdb]); reflexivity
    | apply no_duplicates_insert; [exact Hdb | simpl; eauto using NoDup_nil_2 ..] ].

Lemma handlers_keep_no_duplicates env r req db :
  no_duplicates db ->
  no_duplicates
    (match r with
     | GetStories => list_handler req db
     | GetUserStories => user_stories_handler req db
     | PostStory => create_handler env req db
     | PutStory => update_handler env req db
     | DeleteStory => delete_handler req db
     | PostLike => like_handler req db
     | PostBookmark => bookmark_handler req db
     | PostComment => comment_handler req db
     | DeleteComment => delete_comment_handler req db
     | GetUser => get_user_handler req db
     | GetBookmarked => bookmarked_handler req db
     | PutUser => update_user_handler env req db
     | DeleteUser => delete_user_handler env req db
     end).2.
Proof.
  intros Hdb.
  destruct r;
    unfold list_handler, user_stories_handler, create_handler, update_handler,
      delete_handler, like_handler, bookmark_handler, comment_handler,
      delete_comment_handler, get_user_handler, bookmarked_handler,
      update_user_handler, delete_user_handler, send_story;
    handler_branches;
    try match goal with
        | H : stories db !! _ = Some ?s |- _ =>
          pose proof (no_duplicates_lookup db _ s Hdb H) as [? ?]
        end;
    keep_invariant Hdb; simpl; auto using toggle_NoDup.
Qed.

Lemma serve_keeps_no_duplicates env r req db :
  no_duplicates db -> no_duplicates (serve env r req db).2.
Proof.
  intros Hdb.
  assert (Hprot : forall handler,
    (forall req' db', no_duplicates db' -> no_duplicates (handler req' db').2) ->
    no_duplicates (protected env handler req db).2).
  { intros handler Hh.
    destruct (protected_cases env handler req db) as [Heq|(req' & db1 & Hs & ->)].
    - by eapply no_duplicates_same_stories.
    - apply Hh. apply syncUser_stories in Hs as [Hst _].
      by eapply no_duplicates_same_stories. }
  destruct r; simpl;
    first [ apply Hprot; intros req' db' Hdb' | idtac ].
  - exact (handlers_keep_no_duplicates env GetStories req db Hdb).
  - exact (handlers_keep_no_duplicates env GetUserStories req' db' Hdb').
  - exact (handlers_keep_no_duplicates env PostStory req' db' Hdb').
  - exact (handlers_keep_no_duplicates env PutStory req' db' Hdb').
  - exact (handlers_keep_no_duplicates env DeleteStory req' db' Hdb').
  - exact (handlers_keep_no_duplicates env PostLike req' db' Hdb').
  - exact (handlers_keep_no_duplicates env PostBookmark req' db' Hdb').
  - exact (handlers_keep_no_duplicates env PostComment req' db' Hdb').
  - exact (handlers_keep_no_duplicates env DeleteComment req' db' Hdb').
  - exact (handlers_keep_no_duplicates env GetUser req db Hdb).
  - exact (handlers_keep_no_duplicates env GetBookmarked req' db' Hdb').
  - exact (handlers_keep_no_duplicates env PutUser req' db' Hdb').
  - exact (handlers_keep_no_duplicates env DeleteUser req' db' Hdb').
Qed.

(** C2: when no stored story holds an id twice in [likes] or in
    [bookmarks], the same is true after any one request to any route of
    the server, middleware included, and in particular after the like and
    the bookmark handler. *)
Theorem no_duplicates_preserved db :
  no_duplicates db ->
  (forall env r req, no_duplicates (serve env r req db).2) /\
  (forall e req, no_duplicates (engagement_handler e req db).2).
Proof.
  intros Hdb. split.
  - intros env r req. by apply serve_keeps_no_duplicates.
  - intros [] req.
    + exact (handlers_keep_no_duplicates sample_env PostLike req db Hdb).
    + exact (handlers_keep_no_duplicates sample_env PostBookmark req db Hdb).
Qed.

Lemma no_duplicates_preserved_witness :
  let db := sample_db ["u1"] ["u2"; "u1"] [] in
  let req := sample_request (Some "u2") (Some (2%N, bob)) 7 in
  no_duplicates db /\
  no_duplicates (engagement_handler Like req db).2 /\
  no_duplicates (engagement_handler Bookmark req db).2.
Proof.
  intros db req.
  assert (Hdb : no_duplicates db) by (apply (bool_decide_unpack _); by vm_compute).
  split; [exact Hdb|].
  split; apply (no_duplicates_preserved db Hdb).
Defined.

(** ** Frame of the engagement routes *)

Lemma same_but_refl e s : same_but e s s.
Proof. destruct e; repeat split. Qed.

Lemma only_touches_refl e id m : only_touches e id m m.
Proof.
  split; [done|]. destruct (m !! id) as [s|] eqn:Hs; [|done].
  exists s. split; [done | apply same_but_refl].
Qed.

Lemma engagement_frame e req db :
  users (engagement_handler e req db).2 = users db /\
  only_touches e (p_id req) (stories db) (stories (engagement_handler e req db).2).
Proof.
  destruct (auth_userId req) as [a|] eqn:Ha.
  2:{ rewrite engagement_unauthenticated by done.
      split; [done | apply only_touches_refl]. }
  destruct (stories db !! p_id req) as [s|] eqn:Hs.
  2:{ rewrite engagement_missing by done.
      split; [done | apply only_touches_refl]. }
  destruct (engagement_stored e req db a s Ha Hs) as (s' & -> & _ & Hsame).
  simpl. split; [done|]. split.
  - intros id' Hne. by rewrite lookup_insert_ne.
  - rewrite Hs. exists s'. split; [apply lookup_insert_eq | by destruct e].
Qed.

(** C10: the like handler changes nothing but the [likes] array of the
    story it is called on: the users, every other story, and every other
    stored field of that story (title, content, category, author id, author
    snapshot, media URLs, bookmarks, comments, both timestamps) are as
    before; the bookmark handler likewise changes only [bookmarks]. The
    same holds for the stories when the request goes through the
    middleware. *)
Theorem toggle_changes_one_array e req db :
  (users (engagement_handler e req db).2 = users db /\
   only_touches e (p_id req) (stories db)
     (stories (engagement_handler e req db).2)) /\
  (forall env,
     only_touches e (p_id req) (stories db)
       (stories (protected env (engagement_handler e) req db).2)).
Proof.
  split; [apply engagement_frame|].
  intros env.
  destruct (protected_cases env (engagement_handler e) req db)
    as [->|(req' & db1 & Hs & ->)]; [apply only_touches_refl|].
  apply syncUser_stories in Hs as (Hst & _ & Hid & _).
  rewrite <- Hst, <- Hid. apply engagement_frame.
Qed.

(** The two routes are the protected engagement handlers. *)
Lemma serve_engagement env e req db :
  serve env (match e with Like => PostLike | Bookmark => PostBookmark end) req db
  = protected env (engagement_handler e) req db.
Proof. by destruct e. Qed.

(** ** Owner-only update and delete *)

Lemma send_story_inserted code db id s :
  send_story code (set_stories db (<[id := s]> (stories db))) id
  = mkResponse code (JStory (format_story (users db) id s)).
Proof. unfold send_story. simpl. by rewrite lookup_insert_eq. Qed.

(** C7: on a story id that resolves to nothing, update and delete answer
    404 and change nothing; when the story exists and the caller's local
    user id is not its [authorId], both answer 403 and change nothing; an
    update answers 200 and a delete answers 204 only when the caller's
    local user id equals the story's [authorId]. The owner's delete is
    answered 204 and removes the story; the owner's update is answered 200
    unless an upload is rejected. *)
Theorem update_delete_owner_only env req db :
  (stories db !! p_id req = None ->
     update_handler env req db = (mkResponse 404 (JError "Story not found"), db) /\
     delete_handler req db = (mkResponse 404 (JError "Story not found"), db)) /\
  (forall s uid u,
     stories db !! p_id req = Some s -> req_user req = Some (uid, u) ->
     authorId s ≠ uid ->
     update_handler env req db
       = (mkResponse 403 (JError "Unauthorized: You can only edit your own stories."), db) /\
     delete_handler req db
       = (mkResponse 403 (JError "Unauthorized: You can only delete your own stories."), db)) /\
  (status (update_handler env req db).1 = 200 ->
     exists s uid u, stories db !! p_id req = Some s /\
       req_user req = Some (uid, u) /\ authorId s = uid) /\
  (status (delete_handler req db).1 = 204 ->
     exists s uid u, stories db !! p_id req = Some s /\
       req_user req = Some (uid, u) /\ authorId s = uid) /\
  (forall s uid u,
     stories db !! p_id req = Some s -> req_user req = Some (uid, u) ->
     authorId s = uid ->
     delete_handler req db
       = (mkResponse 204 JEmpty, set_stories db (delete (p_id req) (stories db))) /\
     (is_Some (upload_media env (files req) (imageUrl s, audioUrl s, videoUrl s)) ->
      status (update_handler env req db).1 = 200)).
Proof.
  unfold update_handler, delete_handler. split_and!.
  - by intros ->.
  - intros s uid u -> -> Hne.
    apply N.eqb_neq in Hne. by rewrite Hne.
  - destruct (stories db !! p_id req) as [s|]; [|done].
    destruct (req_user req) as [[uid u]|]; [|done].
    destruct (N.eqb_spec (authorId s) uid) as [Heq|Hne]; [|done].
    intros _. by exists s, uid, u.
  - destruct (stories db !! p_id req) as [s|]; [|done].
    destruct (req_user req) as [[uid u]|]; [|done].
    destruct (N.eqb_spec (authorId s) uid) as [Heq|Hne]; [|done].
    intros _. by exists s, uid, u.
  - intros s uid u -> -> Heq.
    apply N.eqb_eq in Heq. rewrite Heq. simpl. split; [done|].
    intros [[[i a] v] ->]. by rewrite send_story_inserted.
Qed.

(** Bob may not edit or delete alice's story; alice may delete it. *)
Example bob_forbidden_alice_allowed :
  let db := sample_db [] [] [] in
  update_handler sample_env (sample_request (Some "u2") (Some (2%N, bob)) 7) db
    = (mkResponse 403 (JError "Unauthorized: You can only edit your own stories."), db) /\
  delete_handler (sample_request (Some "u2") (Some (2%N, bob)) 7) db
    = (mkResponse 403 (JError "Unauthorized: You can only delete your own stories."), db) /\
  status (update_handler sample_env (sample_request (Some "u1") (Some (1%N, alice)) 7) db).1
    = 200 /\
  stories (delete_handler (sample_request (Some "u1") (Some (1%N, alice)) 7) db).2 !! 7%N
    = None.
Proof. by vm_compute. Qed.

(** ** Deleting a comment *)

Section Comments.

Implicit Types (cs : list Comment) (c : Comment) (k : N).


Lemma comments_id_Some cs k c :
  comments_id cs k = Some c -> c ∈ cs /\ c_id c = k.
Proof.
  unfold comments_id. intros H.
  apply head_Some_elem_of in H. by apply list_elem_of_filter in H as [? ?].
Qed.


Lemma comments_pull_keeps cs k :
  (forall c, c ∈ cs -> c_id c ≠ k) -> comments_pull cs k = cs.
Proof.
  unfold comments_pull. induction cs as [|c0 cs IH]; intros H; [done|].
  rewrite filter_cons. destruct (decide (c_id c0 ≠ k)) as [Hne|Heq].
  - f_equal. apply IH. intros c Hc. apply H. by right.
  - exfalso. apply Heq, H. left.
Qed.

(** With pairwise distinct ids, [pull] takes out the one sub-document
    [id] resolved and keeps the rest in order. *)
Lemma comments_pull_one cs k c :
  NoDup (c_id <$> cs) ->
  comments_id cs k = Some c ->
  exists before after,
    cs = (before ++ c :: after)%list /\
    comments_pull cs k = (before ++ after)%list.
Proof.
  induction cs as [|c0 cs IH]; intros Hnd Hc; [done|].
  rewrite fmap_cons in Hnd. apply NoDup_cons in Hnd as [Hc0 Hnd].
  unfold comments_id, comments_pull in *. rewrite filter_cons in Hc.
  rewrite filter_cons.
  destruct (decide (c_id c0 = k)) as [Heq|Hne]; simpl in Hc.
  - injection Hc as ->. exists [], cs. split; [done|].
    destruct (decide (c_id c ≠ k)) as [?|_]; [done|]. simpl.
    apply (comments_pull_keeps cs k). intros c' Hc' Heq'.
    apply Hc0. rewrite Heq, <- Heq'. by apply list_elem_of_fmap_2.
  - destruct (IH Hnd Hc) as (before & after & -> & Hpull).
    exists (c0 :: before), after. split; [done|].
    destruct (decide (c_id c0 ≠ k)) as [_|?]; [|done].
    simpl. by rewrite Hpull.
Qed.

End Comments.



(** ** Deleting a profile *)

Lemma findOne_clerkId_Some us cid uid u :
  findOne_clerkId us cid = Some (uid, u) ->
  us !! uid = Some u /\ clerkId u = cid.
Proof.
  unfold findOne_clerkId. intros H.
  apply head_Some_elem_of, list_elem_of_filter in H as [Hc Hin].
  by apply elem_of_map_to_list in Hin.
Qed.

Lemma findOne_clerkId_None us cid :
  findOne_clerkId us cid = None ->
  forall uid u, us !! uid = Some u -> clerkId u ≠ cid.
Proof.
  unfold findOne_clerkId. intros H uid u Hu Hc.
  apply head_None in H.
  assert (Hin : (uid, u) ∈ filter (fun p : N * User => clerkId p.2 = cid) (map_to_list us)).
  { apply list_elem_of_filter. split; [done | by apply elem_of_map_to_list]. }
  rewrite H in Hin. by apply elem_of_nil in Hin.
Qed.

Lemma existsb_false_elem {A} (f : A -> bool) (l : list A) x :
  existsb f l = false -> x ∈ l -> f x = false.
Proof.
  intros H Hx. destruct (f x) eqn:Hf; [|done].
  assert (existsb f l = true); [|congruence].
  apply existsb_exists. exists x. split; [by apply list_elem_of_In | done].
Qed.

(** A story that went through the [updateMany] of the cascade holds no
    reference to the user. *)
Lemma cascade_clean cid uid s :
  let s' := if references cid uid s then pull_user cid uid s else s in
  (cid ∉ likes s') /\ (cid ∉ bookmarks s') /\ forall c, c ∈ comments s' -> userId c ≠ uid.
Proof.
  simpl. destruct (references cid uid s) eqn:Hr.
  - simpl. split_and!.
    + intros [? _]%list_elem_of_filter. done.
    + intros [? _]%list_elem_of_filter. done.
    + intros c [? _]%list_elem_of_filter. done.
  - unfold references in Hr.
    apply orb_false_elim in Hr as [Hr Hc]. apply orb_false_elim in Hr as [Hl Hb].
    apply bool_decide_eq_false in Hl, Hb. split_and!; [done..|].
    intros c Hin. apply N.eqb_neq.
    exact (existsb_false_elem _ _ c Hc Hin).
Qed.

(** C9: when a self-delete is answered 204, the request was the user's
    own, the local [User] document it resolved is gone, and every story
    still stored is authored by someone else, holds the user's Clerk id
    neither in [likes] nor in [bookmarks], and has no comment whose
    [userId] is the user's local id. *)
Theorem delete_user_leaves_no_reference env req db :
  status (delete_user_handler env req db).1 = 204 ->
  let db' := (delete_user_handler env req db).2 in
  exists caller uid user,
    req_user req = Some caller /\ clerkId caller.2 = p_clerkId req /\
    findOne_clerkId (users db) (p_clerkId req) = Some (uid, user) /\
    users db !! uid = Some user /\ clerkId user = p_clerkId req /\
    users db' !! uid = None /\
    forall id s,
      stories db' !! id = Some s ->
      authorId s ≠ uid /\
      (p_clerkId req ∉ likes s) /\
      (p_clerkId req ∉ bookmarks s) /\
      forall c, c ∈ comments s -> userId c ≠ uid.
Proof.
  unfold delete_user_handler.
  destruct (req_user req) as [[rid ru]|] eqn:Hru; [|done].
  destruct (String.eqb_spec (clerkId ru) (p_clerkId req)) as [Hself|]; [|done].
  simpl.
  destruct (findOne_clerkId (users db) (p_clerkId req)) as [[uid user]|] eqn:Hf; [|done].
  destruct (deleteUser env (p_clerkId req)); [|done].
  simpl. intros _.
  destruct (findOne_clerkId_Some _ _ _ _ Hf) as [Hu Hc].
  exists (rid, ru), uid, user. split_and!; try done.
  - apply lookup_delete_eq.
  - intros id s. unfold updateMany_pull, deleteMany_author.
    rewrite lookup_fmap.
    destruct (filter _ (stories db) !! id) as [s0|] eqn:Hs0; [|done].
    apply map_lookup_filter_Some in Hs0 as [_ Hauth]. simpl in Hauth.
    simpl. intros [= <-].
    split; [by destruct (references _ _ s0)|].
    apply cascade_clean.
Qed.

Lemma delete_user_leaves_no_reference_witness :
  let req := sample_request (Some "u2") (Some (2%N, bob)) 7 in
  let db' := (delete_user_handler sample_env req sample_db2).2 in
  status (delete_user_handler sample_env req sample_db2).1 = 204 /\
  users db' !! 2%N = None /\
  forall id s,
    stories db' !! id = Some s ->
    authorId s ≠ 2%N /\ ("u2" ∉ likes s) /\ ("u2" ∉ bookmarks s) /\
    forall c, c ∈ comments s -> userId c ≠ 2%N.
Proof.
  intros req db'.
  assert (Hok : status (delete_user_handler sample_env req sample_db2).1 = 204)
    by by vm_compute.
  split; [exact Hok|].
  destruct (delete_user_leaves_no_reference sample_env req sample_db2 Hok)
    as (caller & uid & user & _ & _ & Hf & _ & _ & Hgone & Hclean).
  assert (uid = 2%N) as ->.
  { assert (Hf' : findOne_clerkId (users sample_db2) (p_clerkId req) = Some (2%N, bob))
      by by vm_compute.
    rewrite Hf' in Hf. by injection Hf as <- _. }
  split; [exact Hgone | exact Hclean].
Defined.

(** What is left after bob's self-delete: alice, and her story without
    bob's like, bookmark and comment. *)
Example delete_bob :
  let req := sample_request (Some "u2") (Some (2%N, bob)) 7 in
  let db' := (delete_user_handler sample_env req sample_db2).2 in
  users db' = <[1%N := alice]> ∅ /\
  stories db' =
    <[7%N := mkStory "T" "C" "Myth" 1 "alice" None None None None
               ["u1"] [] [mkComment 51 1 "alice" "thanks" 21] 10 10]> ∅.
Proof. by vm_compute. Qed.

(** ** Listing the stories *)

#[global] Instance newer_first_total : Total newer_first.
Proof. intros a b. unfold newer_first. lia. Qed.

#[global] Instance newer_first_trans : Transitive newer_first.
Proof. intros a b c. unfold newer_first. lia. Qed.

Lemma sort_createdAt_desc_sorted docs :
  StronglySorted newer_first (sort_createdAt_desc docs).
Proof. apply StronglySorted_merge_sort; apply _. Qed.

Lemma sort_createdAt_desc_perm docs : sort_createdAt_desc docs ≡ₚ docs.
Proof. apply merge_sort_Permutation. Qed.

Lemma format_all_newest_first us docs :
  StronglySorted newer_first docs -> json_newest_first (format_all us docs).
Proof.
  intros H. unfold json_newest_first, format_all.
  eapply (StronglySorted_fmap _ newer_first); [|exact H].
  intros a b Hab. exact Hab.
Qed.

(** [GET /api/stories] of the main server answers every stored story,
    formatted, newest first. *)
Lemma list_handler_newest_first req db :
  exists l,
    list_handler req db = (mkResponse 200 (JStories l), db) /\
    json_newest_first l /\
    l ≡ₚ format_all (users db) (map_to_list (stories db)).
Proof.
  eexists. split; [reflexivity|]. split.
  - apply format_all_newest_first, sort_createdAt_desc_sorted.
  - unfold format_all. apply fmap_Permutation, sort_createdAt_desc_perm.
Qed.

(** C3 fails on the router of [routes/stories.js]: it answers [find()]
    as it is, so two stories stored oldest first come back oldest first,
    where the [GET /api/stories] of the main server sorts. *)
Theorem legacy_get_not_sorted :
  let old := Legacy.mkStory "first" "C" "i.png" "General" "Unknown" 100 in
  let new := Legacy.mkStory "second" "C" "j.png" "General" "Unknown" 200 in
  Legacy.get_handler [old; new] = Legacy.mkResponse 200 [old; new] /\
  ~ Legacy.newest_first (Legacy.body (Legacy.get_handler [old; new])).
Proof.
  simpl. split; [reflexivity|].
  unfold Legacy.newest_first. intros H.
  apply StronglySorted_inv in H as [_ H].
  apply Forall_inv in H. simpl in H. lia.
Qed.

(** ** Identity sync: the name of a new user *)

(** [firstName + ' ' + lastName] is never the empty string, whatever the
    two parts are. *)
Lemma joined_not_empty a b : String.eqb (a ++ " " ++ b) "" = false.
Proof. by destruct a. Qed.

(** The name is the provider's username when it is a non-empty string,
    and the first and last name joined by a space otherwise. *)
Lemma synced_username_cases cu fallback :
  synced_username cu fallback =
    if Js.truthy (cu_username cu) then Js.to_string (cu_username cu)
    else Js.to_string (firstName cu) ++ " " ++ Js.to_string (lastName cu).
Proof.
  unfold synced_username, Js.or.
  destruct (Js.truthy (cu_username cu)) eqn:Ht.
  - destruct (cu_username cu) as [n|]; [|done]. simpl in *.
    by destruct (String.eqb n "").
  - simpl. by rewrite joined_not_empty.
Qed.

(** The third operand of the [||] chain is never reached. *)
Lemma synced_username_ignores_fallback cu fallback fallback' :
  synced_username cu fallback = synced_username cu fallback'.
Proof. by rewrite !synced_username_cases. Qed.

(** C4 at a provider profile with no username and no name parts: the
    first request of such a user creates the local document with the name
    ["null null"], not with the placeholder [user_<id>] the code spells
    out as the last operand. *)
Theorem nameless_user_is_null_null :
  let req := sample_request (Some "user_2x") None 7 in
  let created :=
    mkUser "user_2x" "null null" (Some "x@example.org")
      (Some "https://img.example/x") "" 1000 1000 in
  findOne_clerkId ∅ (cu_id nameless) = None /\
  syncUser (clerk_env nameless) req (mkDb ∅ ∅)
    = inr (with_user req (100%N, created), mkDb (<[100%N := created]> ∅) ∅) /\
  username created ≠ "user_" ++ cu_id nameless.
Proof. simpl. split; [by vm_compute|]. split; [by vm_compute | done]. Qed.

(** ** The OTP mailer *)

Section OtpFacts.

Import Otp.

Implicit Types (otpStore : gmap string Entry) (email : string) (v : Value).

Lemma strict_eq_true stored v : strict_eq stored v = true <-> v = Str stored.
Proof.
  destruct v as [| |b|n|s|]; simpl; try (split; [done | discriminate]).
  destruct (String.eqb_spec stored s) as [->|Hne]; split; try done.
  intros [= ->]. done.
Qed.

(** The verdict of [verify_otp], case by case. *)
Lemma verify_otp_cases now email v otpStore :
  match otpStore !! email with
  | None =>
    verify_otp now email v otpStore
      = (Failure 400 "No OTP found for this email", otpStore)
  | Some stored =>
    if decide (now > expires stored) then
      verify_otp now email v otpStore
        = (Failure 400 "OTP expired", delete email otpStore)
    else if decide (v = Str (otp stored)) then
      verify_otp now email v otpStore = (Success, delete email otpStore)
    else
      verify_otp now email v otpStore = (Failure 400 "Invalid OTP", otpStore)
  end.
Proof.
  unfold verify_otp. destruct (otpStore !! email) as [stored|]; [|done].
  destruct (decide (now > expires stored)); [done|].
  destruct (strict_eq (otp stored) v) eqn:Heq.
  - apply strict_eq_true in Heq. by rewrite decide_True.
  - rewrite decide_False; [done|]. intros Hv.
    apply strict_eq_true in Hv. congruence.
Qed.

Lemma send_otp_store r t sent email otpStore :
  (send_otp r t sent email otpStore).2
  = <[email := mkEntry (generateOtp r) (t + 300000)]> otpStore.
Proof. unfold send_otp. by destruct sent. Qed.

Lemma send_all_other sends email otpStore :
  Forall (fun s => s.1.1.1 ≠ email) sends ->
  send_all sends otpStore !! email = otpStore !! email.
Proof.
  revert otpStore. induction sends as [|[[[e r] t] sent] sends IH];
    intros otpStore Hall; [done|].
  apply Forall_cons in Hall as [Hne Hall]. simpl in *.
  rewrite IH by done. rewrite send_otp_store. by apply lookup_insert_ne.
Qed.

(** The entry of an email is the one of the last send to it. *)
Lemma send_all_last earlier later email r t sent otpStore :
  Forall (fun s => s.1.1.1 ≠ email) later ->
  send_all (earlier ++ (email, r, t, sent) :: later) otpStore !! email
  = Some (mkEntry (generateOtp r) (t + 300000)).
Proof.
  intros Hall. unfold send_all. rewrite foldl_app. simpl.
  fold (send_all later
          (send_otp r t sent email
             (foldl (fun st '(email, r, t, sent) => (send_otp r t sent email st).2)
                otpStore earlier)).2).
  rewrite send_all_other by done.
  rewrite send_otp_store. apply lookup_insert_eq.
Qed.

End OtpFacts.

Section OtpClaims.

Import Otp.

Implicit Types (otpStore : gmap string Entry) (email : string) (v : Value).

(** C5: a verify succeeds exactly when the store holds an entry for the
    email, the submitted value is that entry's code, and the time is not
    past the entry's expiry; after any run of sends the entry is the one
    of the last send to that email, so this is the most recently
    generated code and its expiry is five minutes after that send; and
    after a success the entry is gone, so whatever is submitted next for
    the email, at whatever time, is answered "No OTP found". *)
Theorem otp_verify_succeeds_iff now email v otpStore :
  ((verify_otp now email v otpStore).1 = Success <->
     exists stored,
       otpStore !! email = Some stored /\ v = Str (otp stored) /\
       now <= expires stored) /\
  (forall earlier later r t sent,
     Forall (fun s => s.1.1.1 ≠ email) later ->
     ((verify_otp now email v
         (send_all (earlier ++ (email, r, t, sent) :: later) otpStore)).1 = Success
      <-> v = Str (generateOtp r) /\ now <= t + 5 * 60 * 1000)) /\
  ((verify_otp now email v otpStore).1 = Success ->
     let otpStore' := (verify_otp now email v otpStore).2 in
     otpStore' !! email = None /\
     forall now' v',
       verify_otp now' email v' otpStore'
         = (Failure 400 "No OTP found for this email", otpStore')).
Proof.
  assert (Hiff : forall st,
    (verify_otp now email v st).1 = Success <->
    exists stored, st !! email = Some stored /\ v = Str (otp stored) /\
                   now <= expires stored).
  { intros st. pose proof (verify_otp_cases now email v st) as H.
    destruct (st !! email) as [stored|].
    - destruct (decide (now > expires stored)) as [Hexp|Hexp].
      + rewrite H. simpl. split; [done|]. intros (? & [= <-] & _ & ?). lia.
      + destruct (decide (v = Str (otp stored))) as [Hv|Hv]; rewrite H; simpl.
        * split; [|done]. intros _. exists stored. split_and!; [done..|lia].
        * split; [done|]. by intros (? & [= <-] & ? & _).
    - rewrite H. simpl. split; [done|]. by intros (? & ? & _). }
  split_and!.
  - apply Hiff.
  - intros earlier later r t sent Hlater. rewrite Hiff.
    rewrite send_all_last by done. split.
    + intros (stored & [= <-] & Hv & Ht). simpl in *. split; [done | lia].
    + intros [Hv Ht]. eexists. split; [done|]. simpl. split; [done | lia].
  - intros Hok. pose proof (verify_otp_cases now email v otpStore) as H.
    apply Hiff in Hok as (stored & Hs & Hv & Ht). rewrite Hs in H.
    rewrite decide_False in H by lia. rewrite decide_True in H by done.
    rewrite H. simpl. split; [apply lookup_delete_eq|].
    intros now' v'. unfold verify_otp. by rewrite lookup_delete_eq.
Qed.

(** C6: without an entry for the email the verify fails and the store is
    as before; with an entry past its expiry the entry is deleted and
    the verify fails as expired; with a live entry and the matching code
    the entry is deleted and the verify succeeds; with a live entry and
    another value the verify fails as invalid, the store is as before,
    and the right code submitted later within the window succeeds. *)
Theorem otp_verify_effect now email v otpStore :
  (otpStore !! email = None ->
     verify_otp now email v otpStore
       = (Failure 400 "No OTP found for this email", otpStore)) /\
  (forall stored,
     otpStore !! email = Some stored -> now > expires stored ->
     verify_otp now email v otpStore
       = (Failure 400 "OTP expired", delete email otpStore)) /\
  (forall stored,
     otpStore !! email = Some stored -> now <= expires stored ->
     v = Str (otp stored) ->
     verify_otp now email v otpStore = (Success, delete email otpStore)) /\
  (forall stored,
     otpStore !! email = Some stored -> now <= expires stored ->
     v ≠ Str (otp stored) ->
     verify_otp now email v otpStore = (Failure 400 "Invalid OTP", otpStore) /\
     (verify_otp now email v otpStore).2 !! email = Some stored /\
     forall now',
       now' <= expires stored ->
       (verify_otp now' email (Str (otp stored))
          (verify_otp now email v otpStore).2).1 = Success).
Proof.
  pose proof (verify_otp_cases now email v otpStore) as H. split_and!.
  - intros Hs. by rewrite Hs in H.
  - intros stored Hs Hexp. rewrite Hs in H. by rewrite decide_True in H.
  - intros stored Hs Hlive Hv. rewrite Hs in H.
    rewrite decide_False in H by lia. by rewrite decide_True in H.
  - intros stored Hs Hlive Hv. rewrite Hs in H.
    rewrite decide_False in H by lia. rewrite decide_False in H by done.
    rewrite H. simpl. split_and!; [done..|].
    intros now' Hlive'.
    pose proof (verify_otp_cases now' email (Str (otp stored)) otpStore) as H'.
    rewrite Hs in H'. rewrite decide_False in H' by lia.
    rewrite decide_True in H' by done. by rewrite H'.
Qed.

(** A code sent at time 0 and checked one minute, then six minutes
    later. *)
Example otp_round :
  let st := (send_otp 23456 0 true "a@example.org" ∅).2 in
  generateOtp 23456 = "123456" /\
  verify_otp 60000 "a@example.org" (Str "000000") st
    = (Failure 400 "Invalid OTP", st) /\
  verify_otp 60000 "a@example.org" (Num 123456) st
    = (Failure 400 "Invalid OTP", st) /\
  verify_otp 60000 "a@example.org" (Str "123456") st = (Success, ∅) /\
  verify_otp 300000 "a@example.org" (Str "123456") st = (Success, ∅) /\
  verify_otp 360000 "a@example.org" (Str "123456") st
    = (Failure 400 "OTP expired", ∅).
Proof. by vm_compute. Qed.

End OtpClaims.

(** ** Invariants of the sequential server *)

Section Reachable.

Implicit Types (cs : list Comment) (n : N).

Lemma fresh_list_filter n cs (P : Comment -> Prop) `{!forall c, Decision (P c)} :
  fresh_list n cs -> fresh_list n (filter P cs).
Proof.
  unfold fresh_list. induction cs as [|c cs IH]; [done|].
  rewrite fmap_cons, NoDup_cons, Forall_cons. intros [[Hc Hnd] [Hlt Hall]].
  rewrite filter_cons. destruct (decide (P c)); [|by apply IH].
  rewrite fmap_cons, NoDup_cons, Forall_cons.
  destruct (IH (conj Hnd Hall)) as [Hnd' Hall']. split_and!; [|done..].
  intros (c' & Heq & Hin)%list_elem_of_fmap.
  apply list_elem_of_filter in Hin as [_ Hin].
  apply Hc. rewrite Heq. by apply list_elem_of_fmap_2.
Qed.

Lemma fresh_list_succ n cs : fresh_list n cs -> fresh_list (N.succ n) cs.
Proof.
  intros [Hnd Hall]. split; [done|].
  eapply Forall_impl; [exact Hall|]. simpl. lia.
Qed.

Lemma fresh_list_push n cs c :
  c_id c = n -> fresh_list n cs -> fresh_list (N.succ n) (Js.push cs c).
Proof.
  intros Hc [Hnd Hall]. unfold Js.push. split.
  - rewrite fmap_app. apply NoDup_app. split_and!; [done| |apply NoDup_singleton].
    intros k (c' & -> & Hin)%list_elem_of_fmap Hk.
    apply list_elem_of_singleton in Hk.
    rewrite Forall_forall in Hall. specialize (Hall c' Hin). simpl in Hall. lia.
  - apply Forall_app. split.
    + eapply Forall_impl; [exact Hall|]. simpl. lia.
    + apply Forall_singleton. lia.
Qed.

Lemma comment_ids_same_stories db db' n :
  stories db' = stories db ->
  comment_ids_fresh (mkServer db n) -> comment_ids_fresh (mkServer db' n).
Proof. unfold comment_ids_fresh. simpl. by intros ->. Qed.

Lemma comment_ids_succ db n :
  comment_ids_fresh (mkServer db n) -> comment_ids_fresh (mkServer db (N.succ n)).
Proof.
  unfold comment_ids_fresh. simpl. intros H.
  eapply map_Forall_impl; [exact H|]. intros id s. apply fresh_list_succ.
Qed.

Lemma comment_ids_insert db n id s :
  comment_ids_fresh (mkServer db n) -> fresh_list n (comments s) ->
  comment_ids_fresh (mkServer (set_stories db (<[id := s]> (stories db))) n).
Proof. unfold comment_ids_fresh. simpl. intros Hdb Hs. by apply map_Forall_insert_2. Qed.

Lemma comment_ids_delete db n id :
  comment_ids_fresh (mkServer db n) ->
  comment_ids_fresh (mkServer (set_stories db (delete id (stories db))) n).
Proof. unfold comment_ids_fresh. simpl. apply map_Forall_delete. Qed.

Lemma comment_ids_cascade cid uid us db n :
  comment_ids_fresh (mkServer db n) ->
  comment_ids_fresh
    (mkServer (mkDb us (updateMany_pull cid uid (deleteMany_author uid (stories db)))) n).
Proof.
  unfold comment_ids_fresh, updateMany_pull, deleteMany_author. simpl.
  intros Hdb id s. rewrite lookup_fmap.
  destruct (filter _ (stories db) !! id) as [s0|] eqn:Hf; [|done].
  apply map_lookup_filter_Some in Hf as [Hs0 _].
  simpl. intros [= <-]. specialize (Hdb id s0 Hs0). simpl in Hdb.
  destruct (references cid uid s0); [|done]. simpl.
  by apply fresh_list_filter.
Qed.

Lemma comment_ids_lookup db n id s :
  comment_ids_fresh (mkServer db n) -> stories db !! id = Some s ->
  fresh_list n (comments s).
Proof. intros Hdb Hs. exact (Hdb id s Hs). Qed.

Ltac keep_comment_ids Hdb :=
  simpl;
  first
    [ exact Hdb
    | apply comment_ids_delete; exact Hdb
    | apply comment_ids_cascade; exact Hdb
    | (eapply comment_ids_same_stories; [|exact Hdb]); reflexivity
    | apply comment_ids_insert; [exact Hdb | simpl] ].

Lemma handlers_keep_comment_ids env r req db :
  comment_ids_fresh (mkServer db (new_id req)) ->
  comment_ids_fresh
    (mkServer
       (match r with
        | GetStories => list_handler req db
        | GetUserStories => user_stories_handler req db
        | PostStory => create_handler env req db
        | PutStory => update_handler env req db
        | DeleteStory => delete_handler req db
        | PostLike => like_handler req db
        | PostBookmark => bookmark_handler req db
        | PostComment => comment_handler req db
        | DeleteComment => delete_comment_handler req db
        | GetUser => get_user_handler req db
        | GetBookmarked => bookmarked_handler req db
        | PutUser => update_user_handler env req db
        | DeleteUser => delete_user_handler env req db
        end).2
       (N.succ (new_id req))).
Proof.
  intros Hdb.
  destruct r;
    unfold list_handler, user_stories_handler, create_handler, update_handler,
      delete_handler, like_handler, bookmark_handler, comment_handler,
      delete_comment_handler, get_user_handler, bookmarked_handler,
      update_user_handler, delete_user_handler, send_story;
    handler_branches;
    try match goal with
        | H : stories db !! _ = Some ?s |- _ =>
          pose proof (comment_ids_lookup db _ _ s Hdb H)
        end;
    try (apply comment_ids_succ; keep_comment_ids Hdb;
         first [ done
               | by apply fresh_list_filter
               | split; [apply NoDup_nil_2 | apply Forall_nil_2] ]).
  all: simpl; apply comment_ids_insert; [by apply comment_ids_succ|].
  all: simpl; by apply fresh_list_push.
Qed.

End Reachable.

Lemma serve_keeps_comment_ids env r req db :
  comment_ids_fresh (mkServer db (new_id req)) ->
  comment_ids_fresh (mkServer (serve env r req db).2 (N.succ (new_id req))).
Proof.
  intros Hdb.
  assert (Hprot : forall handler,
    (forall req' db',
       comment_ids_fresh (mkServer db' (new_id req')) ->
       comment_ids_fresh (mkServer (handler req' db').2 (N.succ (new_id req')))) ->
    comment_ids_fresh
      (mkServer (protected env handler req db).2 (N.succ (new_id req)))).
  { intros handler Hh.
    destruct (protected_cases env handler req db) as [Heq|(req' & db1 & Hs & ->)].
    - apply comment_ids_succ. by eapply comment_ids_same_stories.
    - apply syncUser_stories in Hs as (Hst & _ & _ & _ & _ & Hid).
      rewrite <- Hid. apply Hh. rewrite Hid.
      by eapply comment_ids_same_stories. }
  destruct r; simpl;
    first [ apply Hprot; intros req' db' Hdb' | idtac ].
  - exact (handlers_keep_comment_ids env GetStories req db Hdb).
  - exact (handlers_keep_comment_ids env GetUserStories req' db' Hdb').
  - exact (handlers_keep_comment_ids env PostStory req' db' Hdb').
  - exact (handlers_keep_comment_ids env PutStory req' db' Hdb').
  - exact (handlers_keep_comment_ids env DeleteStory req' db' Hdb').
  - exact (handlers_keep_comment_ids env PostLike req' db' Hdb').
  - exact (handlers_keep_comment_ids env PostBookmark req' db' Hdb').
  - exact (handlers_keep_comment_ids env PostComment req' db' Hdb').
  - exact (handlers_keep_comment_ids env DeleteComment req' db' Hdb').
  - exact (handlers_keep_comment_ids env GetUser req db Hdb).
  - exact (handlers_keep_comment_ids env GetBookmarked req' db' Hdb').
  - exact (handlers_keep_comment_ids env PutUser req' db' Hdb').
  - exact (handlers_keep_comment_ids env DeleteUser req' db' Hdb').
Qed.

(** Served one request after another from empty collections, the server
    never stores an id twice in a [likes] or [bookmarks] array, nor two
    comments with one id in a story. *)
Lemma reachable_invariants srv :
  reachable srv -> no_duplicates (database srv) /\ comment_ids_fresh srv.
Proof.
  induction 1 as [n|env r req srv Hreach [Hnd Hfresh]].
  - split; apply map_Forall_empty.
  - unfold handle. simpl. split.
    + by apply serve_keeps_no_duplicates.
    + destruct srv as [db n]. simpl in *.
      exact (serve_keeps_comment_ids env r (with_new_id req n) db Hfresh).
Qed.

(** On a reachable server the like and bookmark routes flip the caller's
    membership, and a repeat restores it. *)
Corollary reachable_toggle_flips srv e req req2 a s :
  reachable srv ->
  auth_userId req = Some a -> auth_userId req2 = Some a ->
  p_id req2 = p_id req ->
  stories (database srv) !! p_id req = Some s ->
  flips_and_restores e req req2 a (database srv) s.
Proof.
  intros Hreach Ha Ha2 Hid Hs.
  destruct (reachable_invariants srv Hreach) as [Hnd _].
  destruct (no_duplicates_lookup _ _ _ Hnd Hs) as [Hl Hb].
  apply toggle_flips_at_most_once; try done.
  destruct e; by apply NoDup_at_most_once.
Qed.

(** C1: for every story and every authenticated caller, toggle-like
    flips the caller's membership in the story's likes set (present becomes
    absent, absent becomes present), and toggle-like twice in succession by
    the same caller returns the likes set to its original membership; the
    same holds for toggle-bookmark on the bookmarks set. The stories are
    those of the data model, whose likes and bookmarks are sets: it holds
    for every story of a database without duplicate ids in these arrays,
    and so for every story of every database the server reaches. The
    membership of another id is never changed. *)
Theorem toggle_flips_membership e req req2 a :
  auth_userId req = Some a ->
  auth_userId req2 = Some a ->
  p_id req2 = p_id req ->
  (forall db s,
     no_duplicates db -> stories db !! p_id req = Some s ->
     flips_and_restores e req req2 a db s) /\
  (forall srv s,
     reachable srv -> stories (database srv) !! p_id req = Some s ->
     flips_and_restores e req req2 a (database srv) s).
Proof.
  intros Ha Ha2 Hid.
  assert (Hmodel : forall db s,
    no_duplicates db -> stories db !! p_id req = Some s ->
    flips_and_restores e req req2 a db s).
  { intros db s Hnd Hs.
    destruct (no_duplicates_lookup _ _ _ Hnd Hs) as [Hl Hb].
    apply toggle_flips_at_most_once; try done.
    destruct e; by apply NoDup_at_most_once. }
  split; [exact Hmodel|].
  intros srv s Hreach Hs. apply Hmodel; [|done].
  by destruct (reachable_invariants srv Hreach).
Qed.

Lemma toggle_flips_membership_witness :
  let s := sample_story ["u2"; "u1"] [] [] in
  let db := sample_db ["u2"; "u1"] [] [] in
  let req := sample_request (Some "u1") (Some (1%N, alice)) 7 in
  let db1 := (engagement_handler Like req db).2 in
  let db2 := (engagement_handler Like req db1).2 in
  no_duplicates db /\
  exists s1 s2,
    stories db1 !! p_id req = Some s1 /\
    stories db2 !! p_id req = Some s2 /\
    ("u1" ∈ engaged Like s1 <-> "u1" ∉ engaged Like s) /\
    (forall b, b ≠ "u1" -> (b ∈ engaged Like s1 <-> b ∈ engaged Like s)) /\
    (forall b, b ∈ engaged Like s2 <-> b ∈ engaged Like s).
Proof.
  intros s db req db1 db2.
  assert (Hnd : no_duplicates db) by (apply (bool_decide_unpack _); by vm_compute).
  split; [exact Hnd|].
  refine (proj1 (toggle_flips_membership Like req req "u1" eq_refl eq_refl eq_refl)
            db s Hnd _).
  by vm_compute.
Defined.

Lemma delete_comment_success req db uid u s c :
  req_user req = Some (uid, u) ->
  stories db !! p_id req = Some s ->
  comments_id (comments s) (p_commentId req) = Some c ->
  userId c = uid ->
  (delete_comment_handler req db).2
  = set_stories db
      (<[p_id req := set_comments s (comments_pull (comments s) (p_commentId req))]>
         (stories db)).
Proof.
  intros Hu Hs Hc Heq. unfold delete_comment_handler.
  rewrite Hu, Hs, Hc. apply N.eqb_eq in Heq. by rewrite Heq.
Qed.

(** On a reachable server a comment's author deleting it removes that one
    comment and keeps the others in order. *)
Corollary reachable_delete_comment_exact srv req uid u s c :
  reachable srv ->
  req_user req = Some (uid, u) ->
  stories (database srv) !! p_id req = Some s ->
  comments_id (comments s) (p_commentId req) = Some c ->
  userId c = uid ->
  exists before after,
    comments s = (before ++ c :: after)%list /\
    stories (delete_comment_handler req (database srv)).2 !! p_id req
      = Some (set_comments s (before ++ after)%list).
Proof.
  intros Hreach Hu Hs Hc Heq.
  destruct (reachable_invariants srv Hreach) as [_ Hfresh].
  destruct (comment_ids_lookup _ _ _ _ Hfresh Hs) as [Hnd _].
  destruct (comments_pull_one _ _ _ Hnd Hc) as (before & after & Hsplit & Hpull).
  exists before, after. split; [done|].
  rewrite (delete_comment_success req _ uid u s c) by done.
  simpl. rewrite lookup_insert_eq. by rewrite Hpull.
Qed.

(** ** The examples of the specification *)

(** A story created without media has no image and empty [likes] and
    [comments]. *)
Example create_without_media :
  let req :=
    mkRequest (Some "u1") (Some (1%N, alice)) 0 0 "" (Some "T") (Some "C")
      (Some "Myth") None None no_files None 1000 100 in
  let db := mkDb (<[1%N := alice]> ∅) ∅ in
  exists j,
    (create_handler sample_env req db).1 = mkResponse 201 (JStory j) /\
    imageUrl (j_doc j) = None /\ likes (j_doc j) = [] /\ comments (j_doc j) = [].
Proof. eexists. split; [by vm_compute | done]. Qed.

(** A like by ["u1"] on a story without likes answers [likes: ["u1"]];
    the same request again answers [likes: []]. *)
Example like_then_unlike :
  let req := sample_request (Some "u1") (Some (1%N, alice)) 7 in
  let db := sample_db [] [] [] in
  exists j1 j2,
    (like_handler req db).1 = mkResponse 200 (JStory j1) /\
    likes (j_doc j1) = ["u1"] /\
    (like_handler req (like_handler req db).2).1 = mkResponse 200 (JStory j2) /\
    likes (j_doc j2) = [].
Proof.
  eexists _, _. split; [by vm_compute|]. split; [done|].
  split; [by vm_compute | done].
Qed.

(** * Further properties of the code *)

(** ** The OTP mailer: generation, sending, guessing *)

Section OtpMore.

Import Otp.

Implicit Types (otpStore : gmap string Entry) (email : string) (v : Value).





(** X2: [send-otp] answers success exactly when the relay took the
    message, but stores the code either way and touches no other email's
    entry: a code whose mail was refused still verifies until five
    minutes after the send, and the verify leaves the store as if the
    email had never been sent to. *)
Theorem send_otp_stores_regardless r t sent email otpStore :
  let after := (send_otp r t sent email otpStore).2 in
  ((send_otp r t sent email otpStore).1 = Success <-> sent = true) /\
  after !! email = Some (mkEntry (generateOtp r) (t + 300000)) /\
  (forall other, other ≠ email -> after !! other = otpStore !! other) /\
  (forall now,
     now <= t + 300000 ->
     verify_otp now email (Str (generateOtp r)) after
       = (Success, delete email otpStore)).
Proof.
  simpl. rewrite send_otp_store. split_and!.
  - unfold send_otp. destruct sent; simpl; split; done.
  - apply lookup_insert_eq.
  - intros other Hne. by apply lookup_insert_ne.
  - intros now Hnow.
    pose proof (verify_otp_cases now email (Str (generateOtp r))
                  (<[email := mkEntry (generateOtp r) (t + 300000)]> otpStore)) as H.
    rewrite lookup_insert_eq in H. simpl in H.
    rewrite decide_False in H by lia. rewrite decide_True in H by done.
    by rewrite H, delete_insert_eq.
Qed.

(** X3: a verify never adds an entry and never touches the entry of
    another email. *)
Theorem verify_otp_frame now email v otpStore :
  (verify_otp now email v otpStore).2 ⊆ otpStore /\
  (forall other,
     other ≠ email ->
     (verify_otp now email v otpStore).2 !! other = otpStore !! other).
Proof.
  assert (Hcases :
    (verify_otp now email v otpStore).2 = otpStore \/
    (verify_otp now email v otpStore).2 = delete email otpStore).
  { unfold verify_otp. destruct (otpStore !! email) as [stored|]; [|by left].
    destruct (decide (now > expires stored)); [by right|].
    destruct (strict_eq (otp stored) v); [by right | by left]. }
  destruct Hcases as [-> | ->].
  - split; [done|]. done.
  - split; [apply delete_subseteq|].
    intros other Hne. by apply lookup_delete_ne.
Qed.

Lemma verify_all_wrong email tries otpStore stored :
  otpStore !! email = Some stored ->
  Forall (fun try => try.1 <= expires stored /\ try.2 ≠ Str (otp stored)) tries ->
  verify_all email tries otpStore = otpStore.
Proof.
  intros Hs. induction 1 as [|[now v] tries [Hlive Hwrong] _ IH]; [done|].
  simpl in *.
  pose proof (verify_otp_cases now email v otpStore) as H. rewrite Hs in H.
  rewrite decide_False in H by lia. rewrite decide_False in H by done.
  rewrite H. simpl. exact IH.
Qed.

(** X4: there is no attempt limit. However many wrong values are
    submitted for an email while its code is live, the entry stays as it
    is, and the right code submitted afterwards, still in time, succeeds. *)
Theorem wrong_guesses_cost_nothing email tries otpStore stored now :
  otpStore !! email = Some stored ->
  Forall (fun try => try.1 <= expires stored /\ try.2 ≠ Str (otp stored)) tries ->
  now <= expires stored ->
  verify_all email tries otpStore = otpStore /\
  verify_otp now email (Str (otp stored)) (verify_all email tries otpStore)
    = (Success, delete email otpStore).
Proof.
  intros Hs Htries Hnow.
  rewrite (verify_all_wrong email tries otpStore stored Hs Htries).
  split; [done|].
  pose proof (verify_otp_cases now email (Str (otp stored)) otpStore) as H.
  rewrite Hs in H. rewrite decide_False in H by lia.
  by rewrite decide_True in H.
Qed.

Lemma wrong_guesses_cost_nothing_witness :
  let st := (send_otp 23456 0 true "a@example.org" ∅).2 in
  let tries := [(1000, Str "000000"); (2000, Num 123456); (3000, Str "123457")] in
  verify_otp 4000 "a@example.org" (Str "123456")
    (verify_all "a@example.org" tries st)
  = (Success, delete "a@example.org" st).
Proof.
  intros st tries.
  refine (proj2 (wrong_guesses_cost_nothing "a@example.org" tries st
                   (mkEntry "123456" 300000) 4000 _ _ _)).
  - by vm_compute.
  - repeat constructor; simpl; try lia; discriminate.
  - simpl. lia.
Defined.

End OtpMore.

(** ** Identity sync and the protected routes *)

Lemma save_user_Some us id u us' :
  save_user us id u = Some us' -> us' = <[id := u]> us.
Proof. unfold save_user. destruct (existsb _ _); [done|]. by intros [= <-]. Qed.

(** What a successful sync did. *)
Lemma syncUser_ok env req db req' db' :
  syncUser env req db = inr (req', db') ->
  exists a cu id user,
    auth_userId req = Some a /\ a ≠ "" /\ getUser env a = Got cu /\
    req' = with_user req (id, user) /\
    db' = set_users db (<[id := user]> (users db)) /\
    match findOne_clerkId (users db) (cu_id cu) with
    | Some (id0, old) =>
      id = id0 /\
      user = mkUser (clerkId old) (synced_username cu (username old))
               (Js.or (head (emailAddresses cu)) (email old))
               (Js.or (cu_imageUrl cu) (u_imageUrl old))
               (bio old) (u_createdAt old) (now req)
    | None =>
      id = new_id req /\ users db !! id = None /\
      user = mkUser (cu_id cu) (synced_username cu ("user_" ++ cu_id cu))
               (head (emailAddresses cu)) (cu_imageUrl cu) "" (now req) (now req)
    end.
Proof.
  unfold syncUser. intros H.
  destruct (auth_userId req) as [a|]; [|done].
  destruct (String.eqb_spec a "") as [|Hne]; [done|].
  destruct (getUser env a) as [| |cu] eqn:Hget; [done..|].
  destruct (findOne_clerkId (users db) (cu_id cu)) as [[id0 old]|] eqn:Hfind.
  - destruct (save_user _ _ _) as [us|] eqn:Hsave; [|done].
    apply save_user_Some in Hsave as ->. injection H as <- <-.
    eexists a, cu, id0, _. rewrite Hfind. by split_and!.
  - destruct (users db !! new_id req) eqn:Hfresh; [done|].
    destruct (save_user _ _ _) as [us|] eqn:Hsave; [|done].
    apply save_user_Some in Hsave as ->. injection H as <- <-.
    eexists a, cu, (new_id req), _. rewrite Hfind. by split_and!.
Qed.

(** X5: when the sync lets a request through, [req.user] is a document
    stored under its [_id] whose [clerkId] is the id of the fetched
    profile; no other user document and no story changed; a user that
    existed keeps its [_id], [clerkId], [bio] and creation time, gets the
    clock as [updatedAt], and keeps its local [email] and [imageUrl]
    exactly when the provider's value is missing or empty; a new user is
    stored under an [_id] that was free. *)
Theorem syncUser_attaches_stored_user env req db req' db' :
  syncUser env req db = inr (req', db') ->
  exists cu id user,
    (exists a, auth_userId req = Some a /\ getUser env a = Got cu) /\
    req_user req' = Some (id, user) /\
    users db' !! id = Some user /\
    clerkId user = cu_id cu /\
    u_updatedAt user = now req /\
    (forall other, other ≠ id -> users db' !! other = users db !! other) /\
    stories db' = stories db /\
    match users db !! id with
    | Some old =>
      findOne_clerkId (users db) (cu_id cu) = Some (id, old) /\
      bio user = bio old /\ u_createdAt user = u_createdAt old /\
      email user = (if Js.truthy (head (emailAddresses cu))
                    then head (emailAddresses cu) else email old) /\
      u_imageUrl user = (if Js.truthy (cu_imageUrl cu)
                         then cu_imageUrl cu else u_imageUrl old)
    | None =>
      findOne_clerkId (users db) (cu_id cu) = None /\
      id = new_id req /\ bio user = "" /\ u_createdAt user = now req /\
      email user = head (emailAddresses cu) /\
      u_imageUrl user = cu_imageUrl cu
    end.
Proof.
  intros H.
  destruct (syncUser_ok env req db req' db' H)
    as (a & cu & id & user & Ha & Hne & Hget & -> & -> & Hcase).
  exists cu, id, user. split; [by exists a|].
  split; [done|]. simpl. split; [apply lookup_insert_eq|].
  destruct (findOne_clerkId (users db) (cu_id cu)) as [[id0 old]|] eqn:Hfind.
  - destruct Hcase as [-> ->].
    destruct (findOne_clerkId_Some _ _ _ _ Hfind) as [Hold Hcid].
    simpl. split; [done|]. split; [done|].
    split; [intros other Hother; by apply lookup_insert_ne|].
    split; [done|]. rewrite Hold. by split_and!.
  - destruct Hcase as (-> & Hfree & ->). simpl.
    split; [done|]. split; [done|].
    split; [intros other Hother; by apply lookup_insert_ne|].
    split; [done|]. rewrite Hfree. by split_and!.
Qed.

Lemma syncUser_attaches_stored_user_witness :
  let req := sample_request (Some "user_2x") None 7 in
  exists req' db',
    syncUser (clerk_env nameless) req (mkDb ∅ ∅) = inr (req', db') /\
    exists id user,
      req_user req' = Some (id, user) /\ users db' !! id = Some user /\
      clerkId user = "user_2x".
Proof.
  intros req.
  destruct (syncUser (clerk_env nameless) req (mkDb ∅ ∅))
    as [res|[req' db']] eqn:Hs; [by vm_compute in Hs|].
  exists req', db'. split; [reflexivity|].
  destruct (syncUser_attaches_stored_user _ _ _ _ _ Hs)
    as (cu & id & user & (a & Ha & Hget) & Hu & Hstored & Hcid & _).
  exists id, user. split_and!; [done..|].
  rewrite Hcid. injection Ha as <-.
  vm_compute in Hget. injection Hget as <-. reflexivity.
Defined.

(** X6: a protected route does not run its handler and writes nothing
    when the request carries no credentials (Express's error page, 500),
    when the Clerk user id is empty (401), when Clerk has no such user
    (404), and when the call to Clerk throws (500, a JSON error); when the
    sync lets the request through, the handler runs on what the sync left,
    with [req.user] present. *)
Theorem protected_rejections env handler req db :
  (auth_userId req = None ->
     protected env handler req db = (mkResponse 500 ErrorPage, db)) /\
  (auth_userId req = Some "" ->
     protected env handler req db
       = (mkResponse 401 (JError "Unauthorized: No user ID provided by Clerk."), db)) /\
  (forall a,
     auth_userId req = Some a -> a ≠ "" ->
     (getUser env a = Null ->
        protected env handler req db
          = (mkResponse 404 (JError "User not found in Clerk."), db)) /\
     (getUser env a = Threw ->
        status (protected env handler req db).1 = 500 /\
        (exists msg, body (protected env handler req db).1 = JError msg) /\
        (protected env handler req db).2 = db)) /\
  (forall req' db1,
     syncUser env req db = inr (req', db1) ->
     protected env handler req db = handler req' db1 /\ is_Some (req_user req')).
Proof.
  unfold protected. split_and!.
  - by intros ->.
  - intros Ha. unfold syncUser. by rewrite Ha.
  - intros a Ha Hne. unfold syncUser. rewrite Ha.
    destruct (String.eqb_spec a ""); [done|].
    split; intros ->; [done|]. simpl. split_and!; [done | by eexists | done].
  - intros req' db1 Hs.
    destruct (syncUser_ok _ _ _ _ _ Hs) as (a & cu & id & user & Ha & _ & _ & -> & _).
    rewrite Ha, Hs. split; [done | by eexists].
Qed.

(** ** The three listings *)

(** A listing of the documents [docs] selected from the collection [m] by
    [P]: sorted, each selected story once, nothing else. *)
Lemma listing_spec us (m : gmap N Story) (P : N * Story -> Prop) docs :
  NoDup docs ->
  (forall p, p ∈ docs <-> m !! p.1 = Some p.2 /\ P p) ->
  let l := format_all us (sort_createdAt_desc docs) in
  json_newest_first l /\
  NoDup (j_id <$> l) /\
  (forall j, j ∈ l <->
     exists s, m !! j_id j = Some s /\ P (j_id j, s) /\ j = format_story us (j_id j) s).
Proof.
  intros Hnd Hdocs l. subst l. split_and!.
  - apply format_all_newest_first, sort_createdAt_desc_sorted.
  - unfold format_all. rewrite <- list_fmap_compose.
    change (NoDup ((sort_createdAt_desc docs).*1)).
    apply NoDup_fmap_fst.
    + intros id s1 s2 H1 H2.
      rewrite sort_createdAt_desc_perm in H1, H2.
      apply Hdocs in H1 as [H1 _]. apply Hdocs in H2 as [H2 _].
      simpl in *. congruence.
    + by rewrite sort_createdAt_desc_perm.
  - intros j. unfold format_all. rewrite list_elem_of_fmap. split.
    + intros ([id s] & -> & Hin). rewrite sort_createdAt_desc_perm in Hin.
      apply Hdocs in Hin as [Hs HP]. simpl in *. by exists s.
    + intros (s & Hs & HP & Hj). exists (j_id j, s). split; [done|].
      rewrite sort_createdAt_desc_perm. by apply Hdocs.
Qed.

Lemma map_to_list_selected (m : gmap N Story) (P : N * Story -> Prop)
    `{!forall p, Decision (P p)} :
  NoDup (filter P (map_to_list m)) /\
  (forall p, p ∈ filter P (map_to_list m) <-> m !! p.1 = Some p.2 /\ P p).
Proof.
  split; [apply NoDup_filter, NoDup_map_to_list|].
  intros [id s]. rewrite list_elem_of_filter, elem_of_map_to_list. simpl. tauto.
Qed.

(** X7: [GET /api/stories] writes nothing and answers 200 with a list
    that is newest first and holds every stored story exactly once, each as
    its formatted document. *)
Theorem get_stories_complete req db :
  exists l,
    list_handler req db = (mkResponse 200 (JStories l), db) /\
    json_newest_first l /\
    NoDup (j_id <$> l) /\
    length l = size (stories db) /\
    (forall j, j ∈ l <->
       exists s, stories db !! j_id j = Some s /\
                 j = format_story (users db) (j_id j) s).
Proof.
  eexists. split; [reflexivity|].
  destruct (listing_spec (users db) (stories db) (fun _ => True)
              (map_to_list (stories db))) as (Hsorted & Hnd & Hin).
  { apply NoDup_map_to_list. }
  { intros [id s]. rewrite elem_of_map_to_list. simpl. tauto. }
  split; [done|]. split; [done|]. split.
  - unfold format_all. rewrite length_map.
    rewrite sort_createdAt_desc_perm. apply length_map_to_list.
  - intros j. rewrite Hin. split.
    + intros (s & ? & _ & ?). by exists s.
    + intros (s & ? & ?). by exists s.
Qed.


(** X9: [GET /api/stories/bookmarked] answers, newest first and each
    once, exactly the stories whose [bookmarks] hold the Clerk id of
    [req.user], and writes nothing. *)
Theorem get_bookmarked_exact req db uid user :
  req_user req = Some (uid, user) ->
  exists l,
    bookmarked_handler req db = (mkResponse 200 (JStories l), db) /\
    json_newest_first l /\
    NoDup (j_id <$> l) /\
    (forall j, j ∈ l <->
       exists s, stories db !! j_id j = Some s /\ clerkId user ∈ bookmarks s /\
                 j = format_story (users db) (j_id j) s).
Proof.
  intros Hu. unfold bookmarked_handler. rewrite Hu.
  eexists. split; [reflexivity|].
  destruct (map_to_list_selected (stories db)
              (fun p : N * Story => clerkId user ∈ bookmarks p.2)) as [Hnd Hsel].
  exact (listing_spec (users db) (stories db) _ _ Hnd Hsel).
Qed.

Lemma get_bookmarked_exact_witness :
  let req := sample_request (Some "u2") (Some (2%N, bob)) 7 in
  req_user req = Some (2%N, bob) /\
  exists l,
    bookmarked_handler req sample_db2 = (mkResponse 200 (JStories l), sample_db2) /\
    j_id <$> l = [7%N].
Proof.
  intros req. split; [reflexivity|].
  destruct (get_bookmarked_exact req sample_db2 2%N bob eq_refl)
    as (l & Hl & _).
  exists l. split; [exact Hl|].
  assert (Hl' : (bookmarked_handler req sample_db2).1 =
                mkResponse 200 (JStories l)) by by rewrite Hl.
  vm_compute in Hl'. injection Hl' as <-. reflexivity.
Defined.

(** X10: bookmarking and the bookmark listing agree. After the
    bookmark route ran for a caller on a story whose [bookmarks] held the
    caller at most once, the caller's listing holds that story exactly
    when the caller had not bookmarked it before, and holds any other
    story exactly when the caller had bookmarked it before. *)
Theorem bookmark_then_listed req req2 db a s uid user :
  auth_userId req = Some a ->
  stories db !! p_id req = Some s ->
  at_most_once a (bookmarks s) ->
  req_user req2 = Some (uid, user) ->
  clerkId user = a ->
  let db1 := (bookmark_handler req db).2 in
  exists l,
    bookmarked_handler req2 db1 = (mkResponse 200 (JStories l), db1) /\
    (p_id req ∈ j_id <$> l <-> a ∉ bookmarks s) /\
    (forall id, id ≠ p_id req ->
       (id ∈ j_id <$> l <->
        exists s0, stories db !! id = Some s0 /\ a ∈ bookmarks s0)).
Proof.
  intros Ha Hs Honce Hu Hcid db1.
  destruct (engagement_stored Bookmark req db a s Ha Hs) as (s1 & Hdb1 & Hs1 & _).
  simpl in Hdb1, Hs1. fold db1 in Hdb1.
  unfold bookmarked_handler. rewrite Hu. eexists. split; [reflexivity|].
  destruct (map_to_list_selected (stories db1)
              (fun p : N * Story => clerkId user ∈ bookmarks p.2)) as [Hnd Hsel].
  destruct (listing_spec (users db1) (stories db1) _ _ Hnd Hsel) as (_ & _ & Hin).
  assert (Hids : forall id, id ∈ j_id <$>
            format_all (users db1)
              (sort_createdAt_desc
                 (filter (fun p : N * Story => clerkId user ∈ bookmarks p.2)
                    (map_to_list (stories db1))))
            <-> exists s0, stories db1 !! id = Some s0 /\ a ∈ bookmarks s0).
  { intros id. rewrite list_elem_of_fmap. split.
    - intros (j & -> & Hj). apply Hin in Hj as (s0 & Hs0 & Hb & _).
      simpl in Hb. rewrite Hcid in Hb. by exists s0.
    - intros (s0 & Hs0 & Hb).
      exists (format_story (users db1) id s0). split; [done|].
      apply Hin. exists s0. simpl. rewrite Hcid. by split_and!. }
  split.
  - rewrite Hids, Hdb1. simpl. rewrite lookup_insert_eq.
    rewrite <- (toggle_flips (bookmarks s) a Honce), <- Hs1. split.
    + by intros (s0 & [= <-] & Hb).
    + intros Hb. by exists s1.
  - intros id Hne. rewrite Hids, Hdb1. simpl.
    by rewrite lookup_insert_ne.
Qed.

Lemma bookmark_then_listed_witness :
  let req := sample_request (Some "u1") (Some (1%N, alice)) 8 in
  let db1 := (bookmark_handler req sample_db2).2 in
  at_most_once "u1" [] /\
  exists l,
    bookmarked_handler req db1 = (mkResponse 200 (JStories l), db1) /\
    (8%N ∈ j_id <$> l <-> "u1" ∉ @nil string).
Proof.
  intros req db1.
  assert (Honce : at_most_once "u1" []) by (apply (bool_decide_unpack _); by vm_compute).
  split; [exact Honce|].
  destruct (bookmark_then_listed req req sample_db2 "u1"
              (mkStory "B" "C" "Epic" 2 "bob" None None None None ["u1"] [] [] 11 11)
              1%N alice)
    as (l & Hl & H8 & _);
    [reflexivity | by vm_compute | exact Honce | reflexivity | reflexivity |].
  by exists l.
Defined.

(** ** What no request changes: whose a story is, and when it was made *)

Lemma same_origin_refl s : same_origin s s.
Proof. by repeat split. Qed.

Lemma keeps_origin_refl m : keeps_origin m m.
Proof. intros id s s' H1 H2. rewrite H1 in H2. injection H2 as <-. apply same_origin_refl. Qed.

Lemma keeps_origin_insert m id s s' :
  m !! id = Some s -> same_origin s s' -> keeps_origin m (<[id := s']> m).
Proof.
  intros Hs Ho id' t t' Ht Ht'. destruct (decide (id' = id)) as [->|Hne].
  - rewrite lookup_insert_eq in Ht'. rewrite Hs in Ht. congruence.
  - rewrite lookup_insert_ne in Ht' by done. rewrite Ht in Ht'.
    injection Ht' as <-. apply same_origin_refl.
Qed.

Lemma keeps_origin_fresh m id s' :
  m !! id = None -> keeps_origin m (<[id := s']> m).
Proof.
  intros Hs id' t t' Ht Ht'. destruct (decide (id' = id)) as [->|Hne].
  - congruence.
  - rewrite lookup_insert_ne in Ht' by done. rewrite Ht in Ht'.
    injection Ht' as <-. apply same_origin_refl.
Qed.

Lemma keeps_origin_delete m id : keeps_origin m (delete id m).
Proof.
  intros id' t t' Ht Ht'. apply lookup_delete_Some in Ht' as [_ Ht'].
  rewrite Ht in Ht'. injection Ht' as <-. apply same_origin_refl.
Qed.

Lemma keeps_origin_cascade cid uid m :
  keeps_origin m (updateMany_pull cid uid (deleteMany_author uid m)).
Proof.
  intros id t t' Ht. unfold updateMany_pull, deleteMany_author.
  rewrite lookup_fmap.
  destruct (filter _ m !! id) as [t0|] eqn:Hf; [|done].
  apply map_lookup_filter_Some in Hf as [Ht0 _]. rewrite Ht in Ht0.
  injection Ht0 as <-. simpl. intros [= <-].
  destruct (references cid uid t); by repeat split.
Qed.

Ltac keep_origin :=
  simpl;
  first
    [ apply keeps_origin_refl
    | apply keeps_origin_delete
    | apply keeps_origin_cascade
    | apply keeps_origin_fresh; assumption
    | eapply keeps_origin_insert; [eassumption | by repeat split] ].

Lemma handlers_keep_origin env r req db :
  keeps_origin (stories db)
    (stories
       (match r with
        | GetStories => list_handler req db
        | GetUserStories => user_stories_handler req db
        | PostStory => create_handler env req db
        | PutStory => update_handler env req db
        | DeleteStory => delete_handler req db
        | PostLike => like_handler req db
        | PostBookmark => bookmark_handler req db
        | PostComment => comment_handler req db
        | DeleteComment => delete_comment_handler req db
        | GetUser => get_user_handler req db
        | GetBookmarked => bookmarked_handler req db
        | PutUser => update_user_handler env req db
        | DeleteUser => delete_user_handler env req db
        end).2).
Proof.
  destruct r;
    unfold list_handler, user_stories_handler, create_handler, update_handler,
      delete_handler, like_handler, bookmark_handler, comment_handler,
      delete_comment_handler, get_user_handler, bookmarked_handler,
      update_user_handler, delete_user_handler, send_story;
    handler_branches; keep_origin.
Qed.

Lemma serve_keeps_origin env r req db :
  keeps_origin (stories db) (stories (serve env r req db).2).
Proof.
  assert (Hprot : forall handler,
    (forall req' db', keeps_origin (stories db') (stories (handler req' db').2)) ->
    keeps_origin (stories db) (stories (protected env handler req db).2)).
  { intros handler Hh.
    destruct (protected_cases env handler req db) as [->|(req' & db1 & Hs & ->)].
    - apply keeps_origin_refl.
    - apply syncUser_stories in Hs as [Hst _]. rewrite <- Hst. apply Hh. }
  destruct r; simpl;
    first [ apply Hprot; intros req' db' | idtac ].
  - exact (handlers_keep_origin env GetStories req db).
  - exact (handlers_keep_origin env GetUserStories req' db').
  - exact (handlers_keep_origin env PostStory req' db').
  - exact (handlers_keep_origin env PutStory req' db').
  - exact (handlers_keep_origin env DeleteStory req' db').
  - exact (handlers_keep_origin env PostLike req' db').
  - exact (handlers_keep_origin env PostBookmark req' db').
  - exact (handlers_keep_origin env PostComment req' db').
  - exact (handlers_keep_origin env DeleteComment req' db').
  - exact (handlers_keep_origin env GetUser req db).
  - exact (handlers_keep_origin env GetBookmarked req' db').
  - exact (handlers_keep_origin env PutUser req' db').
  - exact (handlers_keep_origin env DeleteUser req' db').
Qed.

(** X11: no request to any route changes whose a story is or when it was
    made: a story stored before and after the request has the same
    [authorId], the same stored [author] and [authorImage] snapshot, and
    the same [createdAt]. Creation never replaces a stored story. *)
Theorem origin_never_changes env r req db id s s' :
  stories db !! id = Some s ->
  stories (serve env r req db).2 !! id = Some s' ->
  authorId s' = authorId s /\ author s' = author s /\
  authorImage s' = authorImage s /\ createdAt s' = createdAt s.
Proof. intros Hs Hs'. exact (serve_keeps_origin env r req db id s s' Hs Hs'). Qed.

Lemma origin_never_changes_witness :
  let req :=
    mkRequest (Some "u1") (Some (1%N, alice)) 7 50 "u1" (Some "New title") None
      None None None no_files None 1000 100 in
  let db := sample_db [] [] [] in
  exists s',
    stories (serve (clerk_env (mkClerkUser "u1" (Some "alice") None None [] None))
               PutStory req db).2 !! 7%N = Some s' /\
    title s' = "New title" /\ authorId s' = 1%N /\ createdAt s' = 10.
Proof.
  intros req db. eexists. split; [by vm_compute|]. split; [reflexivity|].
  pose proof (origin_never_changes
                (clerk_env (mkClerkUser "u1" (Some "alice") None None [] None))
                PutStory req db 7%N (sample_story [] [] []) _
                ltac:(by vm_compute) ltac:(by vm_compute)) as (H1 & _ & _ & H4).
  split; [exact H1 | exact H4].
Defined.

(** ** No dangling author *)

Lemma story_resolves_users us us' s :
  (forall k, is_Some (us !! k) -> is_Some (us' !! k)) ->
  story_resolves us s -> story_resolves us' s.
Proof.
  intros Hgrow [Ha Hc]. split; [by apply Hgrow|].
  eapply Forall_impl; [exact Hc|]. simpl. auto.
Qed.

Lemma refs_resolve_users db us' :
  (forall k, is_Some (users db !! k) -> is_Some (us' !! k)) ->
  refs_resolve db -> refs_resolve (set_users db us').
Proof.
  intros Hgrow Hdb id s Hs. simpl in *.
  eapply story_resolves_users; [exact Hgrow|]. exact (Hdb id s Hs).
Qed.

Lemma refs_resolve_insert db id s :
  refs_resolve db -> story_resolves (users db) s ->
  refs_resolve (set_stories db (<[id := s]> (stories db))).
Proof. unfold refs_resolve. simpl. intros Hdb Hs. by apply map_Forall_insert_2. Qed.

Lemma refs_resolve_delete db id :
  refs_resolve db -> refs_resolve (set_stories db (delete id (stories db))).
Proof. unfold refs_resolve. simpl. apply map_Forall_delete. Qed.

Lemma refs_resolve_lookup db id s :
  refs_resolve db -> stories db !! id = Some s -> story_resolves (users db) s.
Proof. intros Hdb Hs. exact (Hdb id s Hs). Qed.

Lemma insert_keeps_is_Some (us : gmap N User) id u k :
  is_Some (us !! id) -> is_Some (us !! k) -> is_Some (<[id := u]> us !! k).
Proof.
  intros Hid Hk. destruct (decide (id = k)) as [->|Hne].
  - rewrite lookup_insert_eq. by eexists.
  - by rewrite lookup_insert_ne.
Qed.

(** After the cascade of a profile deletion nothing points at the
    deleted user, so what resolved before resolves without it. *)
Lemma refs_resolve_cascade cid uid db :
  refs_resolve db ->
  refs_resolve
    (mkDb (delete uid (users db))
       (updateMany_pull cid uid (deleteMany_author uid (stories db)))).
Proof.
  intros Hdb id s. unfold updateMany_pull, deleteMany_author. simpl.
  rewrite lookup_fmap.
  destruct (filter _ (stories db) !! id) as [s0|] eqn:Hf; [|done].
  apply map_lookup_filter_Some in Hf as [Hs0 Hauth]. simpl in Hauth.
  simpl. intros [= <-].
  destruct (Hdb id s0 Hs0) as [Ha Hc]. simpl in Ha, Hc.
  pose proof (cascade_clean cid uid s0) as (_ & _ & Hclean). simpl in Hclean.
  split.
  - replace (authorId (if references cid uid s0 then pull_user cid uid s0 else s0))
      with (authorId s0) by by destruct (references cid uid s0).
    by rewrite lookup_delete_ne.
  - apply Forall_forall. intros c Hin.
    rewrite lookup_delete_ne by (intros ->; by apply (Hclean c Hin)).
    rewrite Forall_forall in Hc. apply Hc.
    destruct (references cid uid s0); [|done].
    simpl in Hin. by apply list_elem_of_filter in Hin as [_ ?].
Qed.

Lemma save_user_keeps_refs db id u us :
  is_Some (users db !! id) ->
  save_user (users db) id u = Some us ->
  refs_resolve db -> refs_resolve (set_users db us).
Proof.
  intros Hid Hsave Hdb. apply save_user_Some in Hsave as ->.
  apply refs_resolve_users; [|done]. intros k. by apply insert_keeps_is_Some.
Qed.

Lemma Forall_filter_keep {A} (P Q : A -> Prop) `{!forall x, Decision (Q x)} l :
  Forall P l -> Forall P (filter Q l).
Proof.
  rewrite !Forall_forall. intros Hall x [_ Hx]%list_elem_of_filter. by apply Hall.
Qed.

(** The handlers keep every reference resolving, given that [req.user],
    when present, is a stored user. *)
Lemma handlers_keep_refs env r req db :
  refs_resolve db ->
  (forall uid u, req_user req = Some (uid, u) -> is_Some (users db !! uid)) ->
  refs_resolve
    (match r with
     | GetStories => list_handler req db
     | GetUserStories => user_stories_handler req db
     | PostStory => create_handler env req db
     | PutStory => update_handler env req db
     | DeleteStory => delete_handler req db
     | PostLike => like_handler req db
     | PostBookmark => bookmark_handler req db
     | PostComment => comment_handler req db
     | DeleteComment => delete_comment_handler req db
     | GetUser => get_user_handler req db
     | GetBookmarked => bookmarked_handler req db
     | PutUser => update_user_handler env req db
     | DeleteUser => delete_user_handler env req db
     end).2.
Proof.
  intros Hdb Huser.
  destruct r;
    unfold list_handler, user_stories_handler, create_handler, update_handler,
      delete_handler, like_handler, bookmark_handler, comment_handler,
      delete_comment_handler, get_user_handler, bookmarked_handler,
      update_user_handler, delete_user_handler, send_story;
    handler_branches; subst;
    try match goal with
        | H : stories db !! _ = Some ?s |- _ =>
          pose proof (refs_resolve_lookup db _ s Hdb H) as [? ?]
        end;
    try match type of Huser with
        | forall uid u0, Some (?n, ?u) = Some (uid, u0) -> _ =>
          specialize (Huser n u eq_refl)
        end;
    simpl; unfold Js.push, comments_pull;
    first
      [ exact Hdb
      | apply refs_resolve_delete; exact Hdb
      | apply refs_resolve_cascade; exact Hdb
      | apply refs_resolve_insert; [exact Hdb|]; split; simpl;
        first [ assumption
              | apply Forall_nil_2
              | apply Forall_app; split; [assumption | by apply Forall_singleton]
              | by apply Forall_filter_keep ]
      | match goal with
        | H : save_user _ ?id _ = Some _, F : findOne_clerkId _ _ = Some (?id, ?u0) |- _ =>
          apply (save_user_keeps_refs db id _ _ ltac:(
                   apply findOne_clerkId_Some in F as [F _]; by eexists) H Hdb)
        end ].
Qed.

Lemma serve_keeps_refs env r req db :
  refs_resolve db -> refs_resolve (serve env r req db).2.
Proof.
  intros Hdb.
  assert (Hprot : forall r',
    serve env r req db
      = protected env
          (fun req' db' =>
             match r' with
             | GetStories => list_handler req' db'
             | GetUserStories => user_stories_handler req' db'
             | PostStory => create_handler env req' db'
             | PutStory => update_handler env req' db'
             | DeleteStory => delete_handler req' db'
             | PostLike => like_handler req' db'
             | PostBookmark => bookmark_handler req' db'
             | PostComment => comment_handler req' db'
             | DeleteComment => delete_comment_handler req' db'
             | GetUser => get_user_handler req' db'
             | GetBookmarked => bookmarked_handler req' db'
             | PutUser => update_user_handler env req' db'
             | DeleteUser => delete_user_handler env req' db'
             end) req db ->
    refs_resolve (serve env r req db).2).
  { intros r' ->. unfold protected.
    destruct (auth_userId req); [|done].
    destruct (syncUser env req db) as [res|[req' db1]] eqn:Hs; [done|].
    destruct (syncUser_ok _ _ _ _ _ Hs) as (a & cu & id & user & _ & _ & _ & -> & -> & _).
    apply (handlers_keep_refs env r').
    - apply refs_resolve_users; [|done]. intros k [x Hk].
      destruct (decide (id = k)) as [->|Hne].
      + rewrite lookup_insert_eq. by eexists.
      + rewrite lookup_insert_ne by done. by eexists.
    - simpl. intros uid u [= <- <-]. rewrite lookup_insert_eq. by eexists. }
  destruct r.
  - exact Hdb.
  - exact (Hprot GetUserStories eq_refl).
  - exact (Hprot PostStory eq_refl).
  - exact (Hprot PutStory eq_refl).
  - exact (Hprot DeleteStory eq_refl).
  - exact (Hprot PostLike eq_refl).
  - exact (Hprot PostBookmark eq_refl).
  - exact (Hprot PostComment eq_refl).
  - exact (Hprot DeleteComment eq_refl).
  - unfold serve, get_user_handler.
    by destruct (findOne_clerkId (users db) (p_clerkId req)) as [[? ?]|].
  - exact (Hprot GetBookmarked eq_refl).
  - exact (Hprot PutUser eq_refl).
  - exact (Hprot DeleteUser eq_refl).
Qed.

(** X12: no request leaves a dangling author. If the [authorId] of
    every stored story and the [userId] of every stored comment is the
    [_id] of a stored user, the same is true after one request to any
    route, the profile deletion with its cascade included. *)
Theorem references_keep_resolving env r req db :
  refs_resolve db -> refs_resolve (serve env r req db).2.
Proof. apply serve_keeps_refs. Qed.

Lemma references_keep_resolving_witness :
  let env := clerk_env (mkClerkUser "u2" (Some "bob") None None [] None) in
  let req := sample_request (Some "u2") None 7 in
  refs_resolve sample_db2 /\
  status (serve env DeleteUser req sample_db2).1 = 204 /\
  refs_resolve (serve env DeleteUser req sample_db2).2.
Proof.
  intros env req.
  assert (Hdb : refs_resolve sample_db2)
    by (apply (bool_decide_unpack _); by vm_compute).
  split; [exact Hdb|]. split; [by vm_compute|].
  exact (references_keep_resolving env DeleteUser req sample_db2 Hdb).
Defined.

(** Served one request after another from empty collections, the server
    never holds a story or a comment of a user it does not hold. *)
Lemma reachable_refs_resolve srv : reachable srv -> refs_resolve (database srv).
Proof.
  induction 1 as [n|env r req srv Hreach IH]; [apply map_Forall_empty|].
  unfold handle. simpl. by apply serve_keeps_refs.
Qed.

(** ** Creating and updating a story *)

Lemma or_str_overwritten supplied old :
  overwritten supplied old (Js.or_str supplied old).
Proof.
  unfold overwritten, Js.or_str. split.
  - intros t -> Hne. by destruct (String.eqb_spec t "").
  - by intros [->| ->].
Qed.

Lemma upload_field_replaced env f folder old result :
  upload_field env f folder old = Some result ->
  replaced env f folder old result.
Proof.
  unfold upload_field, replaced. destruct f as [file|]; [|by intros [= <-]].
  destruct (uploadToImageKit env file folder) as [url|]; [|done].
  intros [= <-]. split; [by eexists | done].
Qed.

Lemma upload_media_replaced env fs old i a v :
  upload_media env fs old = Some (i, a, v) ->
  replaced env (image fs) "story-images" old.1.1 i /\
  replaced env (audio fs) "story-audio" old.1.2 a /\
  replaced env (video fs) "story-videos" old.2 v.
Proof.
  unfold upload_media.
  destruct (upload_field env (image fs) _ _) as [i'|] eqn:Hi; [|done].
  destruct (upload_field env (audio fs) _ _) as [a'|] eqn:Ha; [|done].
  destruct (upload_field env (video fs) _ _) as [v'|] eqn:Hv; [|done].
  intros [= <- <- <-]. split_and!; by apply upload_field_replaced.
Qed.

(** X13: [POST /api/stories]. The answer is 400 exactly when the
    title, the content or the category is missing or empty; whenever the
    answer is not 201 (a missing field, a rejected upload, an [_id]
    already taken) the database is as before, so no partial story is
    stored; a 201 adds
    one story under an [_id] that was free and changes nothing else, and
    that story carries the three submitted texts, the caller's local id
    and name, the URLs the media host gave for the files that came and
    null for the others, empty [likes], [bookmarks] and [comments], and
    the clock as both timestamps. *)
Theorem create_story_outcome env req db :
  let out := create_handler env req db in
  (status out.1 = 400 <->
     Js.truthy (b_title req) && Js.truthy (b_content req)
       && Js.truthy (b_category req) = false) /\
  (status out.1 ≠ 201 -> out.2 = db) /\
  (status out.1 = 201 ->
     exists uid user s,
       req_user req = Some (uid, user) /\
       stories db !! new_id req = None /\
       out = (mkResponse 201 (JStory (format_story (users db) (new_id req) s)),
              set_stories db (<[new_id req := s]> (stories db))) /\
       b_title req = Some (title s) /\ b_content req = Some (content s) /\
       b_category req = Some (category s) /\
       authorId s = uid /\ author s = username user /\
       authorImage s = u_imageUrl user /\
       replaced env (image (files req)) "story-images" None (imageUrl s) /\
       replaced env (audio (files req)) "story-audio" None (audioUrl s) /\
       replaced env (video (files req)) "story-videos" None (videoUrl s) /\
       likes s = [] /\ bookmarks s = [] /\ comments s = [] /\
       createdAt s = now req /\ updatedAt s = now req).
Proof.
  unfold create_handler, Js.truthy.
  destruct (b_title req) as [t|]; [|by split_and!].
  destruct (b_content req) as [c|];
    [|split_and!; [by rewrite andb_false_r | done..]].
  destruct (b_category req) as [g|];
    [|split_and!; [by rewrite andb_false_r | done..]].
  destruct (String.eqb t ""), (String.eqb c ""), (String.eqb g "");
    simpl; try by split_and!.
  destruct (upload_media env (files req) (None, None, None))
    as [[[i a] v]|] eqn:Hup; [|by split_and!].
  destruct (req_user req) as [[uid user]|]; [|by split_and!].
  destruct (stories db !! new_id req) eqn:Hfree; [by split_and!|].
  rewrite send_story_inserted. simpl. split_and!; [done..|].
  intros _. destruct (upload_media_replaced _ _ _ _ _ _ Hup) as (Hi & Ha & Hv).
  eexists uid, user, _. split_and!; try reflexivity; done.
Qed.

(** X14: [PUT /api/stories/:id]. Whenever the answer is not 200 the
    database is as before. A 200 rewrites the one story and nothing else:
    each of title, content and category takes the submitted value when
    that is a non-empty string and keeps the old one otherwise (so a
    field cannot be cleared); each media URL is replaced by what the media
    host gave when a file came and kept otherwise; [updatedAt] is the
    clock; likes, bookmarks, comments, author and creation time are as
    they were. *)
Theorem update_story_outcome env req db :
  let out := update_handler env req db in
  (status out.1 ≠ 200 -> out.2 = db) /\
  (status out.1 = 200 ->
     exists s s',
       stories db !! p_id req = Some s /\
       out = (mkResponse 200 (JStory (format_story (users db) (p_id req) s')),
              set_stories db (<[p_id req := s']> (stories db))) /\
       overwritten (b_title req) (title s) (title s') /\
       overwritten (b_content req) (content s) (content s') /\
       overwritten (b_category req) (category s) (category s') /\
       replaced env (image (files req)) "story-images" (imageUrl s) (imageUrl s') /\
       replaced env (audio (files req)) "story-audio" (audioUrl s) (audioUrl s') /\
       replaced env (video (files req)) "story-videos" (videoUrl s) (videoUrl s') /\
       updatedAt s' = now req /\
       likes s' = likes s /\ bookmarks s' = bookmarks s /\
       comments s' = comments s /\ same_origin s s').
Proof.
  unfold update_handler.
  destruct (stories db !! p_id req) as [s|]; [|by split].
  destruct (req_user req) as [[uid user]|]; [|by split].
  destruct (N.eqb (authorId s) uid); simpl; [|by split].
  destruct (upload_media env (files req) (imageUrl s, audioUrl s, videoUrl s))
    as [[[i a] v]|] eqn:Hup; [|by split].
  rewrite send_story_inserted. simpl. split; [done|].
  intros _. destruct (upload_media_replaced _ _ _ _ _ _ Hup) as (Hi & Ha & Hv).
  eexists s, _. split; [done|]. split; [reflexivity|]. simpl.
  split_and!; try apply or_str_overwritten; try done.
Qed.

(** ** Commenting *)

Lemma set_comments_same s : set_comments s (comments s) = s.
Proof. by destruct s. Qed.

Lemma set_comments_twice s cs cs' :
  set_comments (set_comments s cs) cs' = set_comments s cs'.
Proof. by destruct s. Qed.

(** X15: [POST /api/stories/:id/comment] by a synced caller. The answer
    is 400 exactly when the content is missing or empty, and otherwise 404
    exactly when the story id resolves to nothing; in both cases nothing is
    written. Otherwise the answer is 201 and the one change is a comment
    appended at the end of that story's list, with the clock as creation
    time, the caller's local id and name, and the content as submitted. *)
Theorem add_comment_outcome req db uid user :
  req_user req = Some (uid, user) ->
  let out := comment_handler req db in
  (status out.1 = 400 <-> Js.truthy (b_content req) = false) /\
  (status out.1 = 404 <->
     Js.truthy (b_content req) = true /\ stories db !! p_id req = None) /\
  (status out.1 ≠ 201 -> out.2 = db) /\
  (forall text s,
     b_content req = Some text -> text ≠ "" ->
     stories db !! p_id req = Some s ->
     let s' :=
       set_comments s
         (comments s ++ [mkComment (new_id req) uid (username user) text (now req)]) in
     out = (mkResponse 201 (JStory (format_story (users db) (p_id req) s')),
            set_stories db (<[p_id req := s']> (stories db)))).
Proof.
  intros Hu. unfold comment_handler. rewrite Hu.
  destruct (Js.truthy (b_content req)) eqn:Ht; simpl.
  - destruct (stories db !! p_id req) as [s|] eqn:Hs.
    + rewrite send_story_inserted. simpl.
      split; [done|]. split; [split; [done | by intros [_ ?]]|].
      split; [done|].
      intros text s0 Hc Hne [= <-]. rewrite Hc. reflexivity.
    + split; [done|]. split; [done|]. split; done.
  - split; [done|]. split; [split; [done | by intros [? _]]|].
    split; [done|].
    intros text s Hc Hne. unfold Js.truthy in Ht. rewrite Hc in Ht.
    destruct (String.eqb_spec text ""); [done | discriminate].
Qed.

Lemma add_comment_outcome_witness :
  let req :=
    mkRequest (Some "u2") (Some (2%N, bob)) 8 0 "u2" None (Some "well told")
      None None None no_files None 1000 100 in
  req_user req = Some (2%N, bob) /\
  exists s',
    stories (comment_handler req sample_db2).2 !! 8%N = Some s' /\
    comments s' = [mkComment 100 2 "bob" "well told" 1000].
Proof.
  intros req. split; [reflexivity|].
  destruct (add_comment_outcome req sample_db2 2%N bob eq_refl) as (_ & _ & _ & Hok).
  rewrite (Hok "well told"
             (mkStory "B" "C" "Epic" 2 "bob" None None None None ["u1"] [] [] 11 11))
    by (reflexivity || discriminate || by vm_compute).
  eexists. split; [by vm_compute | reflexivity].
Defined.

Lemma comments_id_pushed cs c :
  c_id c ∉ c_id <$> cs -> comments_id (cs ++ [c])%list (c_id c) = Some c.
Proof.
  unfold comments_id. intros Hfresh. rewrite filter_app.
  replace (filter (fun c0 : Comment => c_id c0 = c_id c) cs) with (@nil Comment).
  - rewrite filter_cons_True by done. done.
  - symmetry. induction cs as [|c0 cs IH]; [done|].
    rewrite fmap_cons, not_elem_of_cons in Hfresh. destruct Hfresh as [Hne Hfresh].
    rewrite filter_cons_False by congruence. by apply IH.
Qed.

Lemma comments_pull_pushed cs c :
  c_id c ∉ c_id <$> cs -> comments_pull (cs ++ [c])%list (c_id c) = cs.
Proof.
  unfold comments_pull. intros Hfresh. rewrite filter_app.
  rewrite filter_cons_False by (intros H; by apply H).
  rewrite filter_nil, app_nil_r.
  induction cs as [|c0 cs IH]; [done|].
  rewrite fmap_cons, not_elem_of_cons in Hfresh. destruct Hfresh as [Hne Hfresh].
  rewrite filter_cons_True by congruence. f_equal. by apply IH.
Qed.

Lemma story_as_before_same id db db' s :
  users db' = users db -> stories db' = stories db ->
  stories db !! id = Some s -> story_as_before id db db'.
Proof.
  intros Hu Hst Hs. split; [done|]. split; [by rewrite Hst|].
  exists s, s. split; [done|]. split; [by rewrite Hst|].
  unfold same_fields, same_but_likes. by split_and!.
Qed.

(** X16: commenting and then deleting that comment is a round trip on
    what the schema declares. When the new comment's [_id] is not yet used
    in the story, the comment handler followed by the delete-comment handler
    of the author for that id leaves the story with every schema path as it
    was before the comment, [comments] element by element; no other story
    and no user document is written by the two handlers. *)
Theorem comment_then_delete_restores req req2 db uid user user2 text s :
  req_user req = Some (uid, user) ->
  b_content req = Some text -> text ≠ "" ->
  stories db !! p_id req = Some s ->
  new_id req ∉ c_id <$> comments s ->
  req_user req2 = Some (uid, user2) ->
  p_id req2 = p_id req -> p_commentId req2 = new_id req ->
  story_as_before (p_id req) db
    (delete_comment_handler req2 (comment_handler req db).2).2.
Proof.
  intros Hu Hc Hne Hs Hfresh Hu2 Hid Hcid.
  assert (Hout : (comment_handler req db).2
    = set_stories db
        (<[p_id req :=
             set_comments s
               (comments s ++
                [mkComment (new_id req) uid (username user) text (now req)])]>
           (stories db))).
  { unfold comment_handler. rewrite Hu. unfold Js.truthy. rewrite Hc.
    destruct (String.eqb_spec text ""); [done|]. simpl. by rewrite Hs. }
  rewrite Hout. clear Hout.
  set (c := mkComment (new_id req) uid (username user) text (now req)).
  assert (Hfresh' : c_id c ∉ c_id <$> comments s) by done.
  unfold delete_comment_handler. rewrite Hu2, Hid, Hcid. simpl.
  rewrite lookup_insert_eq. simpl.
  change (new_id req) with (c_id c).
  rewrite comments_id_pushed by done. simpl. rewrite N.eqb_refl. simpl.
  rewrite comments_pull_pushed by done.
  rewrite set_comments_twice, set_comments_same.
  unfold set_stories. simpl.
  rewrite insert_insert_eq, insert_id by done.
  by apply (story_as_before_same _ _ _ s).
Qed.

Lemma comment_then_delete_restores_witness :
  let req :=
    mkRequest (Some "u2") (Some (2%N, bob)) 7 0 "u2" None (Some "again")
      None None None no_files None 1000 100 in
  let req2 :=
    mkRequest (Some "u2") (Some (2%N, bob)) 7 100 "u2" None None
      None None None no_files None 2000 101 in
  story_as_before 7 sample_db2
    (delete_comment_handler req2 (comment_handler req sample_db2).2).2.
Proof.
  intros req req2.
  apply (comment_then_delete_restores req req2 sample_db2 2%N bob bob "again"
           (mkStory "T" "C" "Myth" 1 "alice" None None None None
              ["u2"; "u1"] ["u2"]
              [mkComment 50 2 "bob" "nice" 20; mkComment 51 1 "alice" "thanks" 21]
              10 10));
    try reflexivity; try discriminate; try (by vm_compute).
  apply (bool_decide_unpack _). by vm_compute.
Defined.

(** ** Liking and unliking, to the letter *)

Lemma engagement_explicit e req db a s :
  auth_userId req = Some a ->
  stories db !! p_id req = Some s ->
  (engagement_handler e req db).2
  = set_stories db
      (<[p_id req :=
           match e with
           | Like => set_likes s (toggle (likes s) a)
           | Bookmark => set_bookmarks s (toggle (bookmarks s) a)
           end]> (stories db)).
Proof.
  intros Ha Hs. destruct e; simpl; unfold like_handler, bookmark_handler;
    by rewrite Ha, Hs.
Qed.

(** X17: a like followed by a like of the same caller. When the caller
    was not in [likes], the second request leaves the story with every
    schema path as it was, the array element by element, and the two
    handlers write no other story and no user document; when the caller was
    in it once, the array ends up with the caller moved from its place to
    the end, so the membership is as before but the order is not. The
    bookmark route behaves the same on [bookmarks]. *)
Theorem toggle_twice_to_the_letter e req req2 db a s :
  auth_userId req = Some a ->
  auth_userId req2 = Some a ->
  p_id req2 = p_id req ->
  stories db !! p_id req = Some s ->
  let db2 := (engagement_handler e req2 (engagement_handler e req db).2).2 in
  (a ∉ engaged e s -> story_as_before (p_id req) db db2) /\
  (forall arr1 arr2,
     engaged e s = (arr1 ++ a :: arr2)%list -> a ∉ arr1 -> a ∉ arr2 ->
     exists s2, stories db2 !! p_id req = Some s2 /\
                engaged e s2 = (arr1 ++ arr2 ++ [a])%list).
Proof.
  intros Ha Ha2 Hid Hs db2. subst db2.
  rewrite (engagement_explicit e req db a s Ha Hs).
  erewrite (engagement_explicit e req2 _ a);
    [|done|rewrite Hid; simpl; apply lookup_insert_eq].
  rewrite Hid. unfold set_stories. simpl. rewrite insert_insert_eq. split.
  - intros Habsent.
    assert (Hback :
      match e with
      | Like =>
        set_likes (set_likes s (toggle (likes s) a))
          (toggle (likes (set_likes s (toggle (likes s) a))) a)
      | Bookmark =>
        set_bookmarks (set_bookmarks s (toggle (bookmarks s) a))
          (toggle (bookmarks (set_bookmarks s (toggle (bookmarks s) a))) a)
      end = s).
    { destruct e; simpl in *; rewrite toggle_twice_absent by done; by destruct s. }
    destruct e; rewrite Hback, insert_id by done;
      by apply (story_as_before_same _ _ _ s).
  - intros arr1 arr2 Hsplit H1 H2. eexists. split; [apply lookup_insert_eq|].
    assert (Htwice : toggle (toggle (arr1 ++ a :: arr2)%list a) a
                     = (arr1 ++ arr2 ++ [a])%list).
    { rewrite toggle_first by done.
      rewrite toggle_absent by (intros [?|?]%elem_of_app; done).
      by rewrite <- app_assoc. }
    destruct e; simpl in *; by rewrite Hsplit, Htwice.
Qed.

Lemma toggle_twice_to_the_letter_witness :
  let req := sample_request (Some "u2") (Some (2%N, bob)) 8 in
  story_as_before 8 sample_db2
    (engagement_handler Like req (engagement_handler Like req sample_db2).2).2.
Proof.
  intros req.
  refine (proj1 (toggle_twice_to_the_letter Like req req sample_db2 "u2"
                   (mkStory "B" "C" "Epic" 2 "bob" None None None None
                      ["u1"] [] [] 11 11) _ _ _ _) _);
    try reflexivity; try (by vm_compute).
  apply (bool_decide_unpack _). by vm_compute.
Defined.

(** ** Profiles *)

(** X18: [PUT /api/users/:id] by a synced caller. Another user's
    profile is refused with 403; one's own with neither a non-empty
    username nor a non-empty bio nor a file is refused with 400; whenever the
    answer is not 200 nothing is written. A 200 rewrites the one user
    document found under the Clerk id: username and bio take the submitted
    value when it is a non-empty string and keep the old one otherwise, the
    image URL is replaced when a file came, [updatedAt] is the clock, and
    the Clerk id, the email and the creation time stay. No story is
    touched, so the author snapshots stored in the stories are not
    renamed. *)
Theorem update_profile_outcome env req db rid ru :
  req_user req = Some (rid, ru) ->
  let out := update_user_handler env req db in
  (clerkId ru ≠ p_clerkId req ->
     out = (mkResponse 403
              (JError "Unauthorized: You can only edit your own profile"), db)) /\
  (clerkId ru = p_clerkId req ->
     Js.truthy (b_username req) = false -> Js.truthy (b_bio req) = false ->
     file req = None ->
     out = (mkResponse 400 (JError "No update data provided"), db)) /\
  (status out.1 ≠ 200 -> out.2 = db) /\
  (status out.1 = 200 ->
     exists id old new,
       findOne_clerkId (users db) (p_clerkId req) = Some (id, old) /\
       out = (mkResponse 200 (JUser new),
              set_users db (<[id := new]> (users db))) /\
       overwritten (b_username req) (username old) (username new) /\
       overwritten (b_bio req) (bio old) (bio new) /\
       replaced env (file req) "profile-images" (u_imageUrl old) (u_imageUrl new) /\
       u_updatedAt new = now req /\
       clerkId new = clerkId old /\ email new = email old /\
       u_createdAt new = u_createdAt old /\
       stories out.2 = stories db).
Proof.
  intros Hu. unfold update_user_handler. rewrite Hu.
  destruct (String.eqb_spec (clerkId ru) (p_clerkId req)) as [Hself|Hother]; simpl.
  2:{ split_and!; done. }
  split; [done|].
  assert (Hrun :
    forall img,
      replaced env (file req) "profile-images" None img ->
      (Js.truthy (b_username req) = true \/ Js.truthy (b_bio req) = true \/
       is_Some (file req)) ->
      let out :=
        match findOne_clerkId (users db) (p_clerkId req) with
        | Some (id, user) =>
          match
            save_user (users db) id
              (mkUser (clerkId user) (Js.or_str (b_username req) (username user))
                 (email user)
                 (match img with Some url => Some url | None => u_imageUrl user end)
                 (Js.or_str (b_bio req) (bio user)) (u_createdAt user) (now req))
          with
          | Some us =>
            (mkResponse 200
               (JUser
                  (mkUser (clerkId user)
                     (Js.or_str (b_username req) (username user)) (email user)
                     (match img with Some url => Some url | None => u_imageUrl user end)
                     (Js.or_str (b_bio req) (bio user)) (u_createdAt user)
                     (now req))), set_users db us)
          | None => (mkResponse 500 (JError "Failed to update profile: "), db)
          end
        | None => (mkResponse 404 (JError "User not found"), db)
        end in
      (status out.1 ≠ 200 -> out.2 = db) /\
      (status out.1 = 200 ->
       exists id old new,
         findOne_clerkId (users db) (p_clerkId req) = Some (id, old) /\
         out = (mkResponse 200 (JUser new), set_users db (<[id := new]> (users db))) /\
         overwritten (b_username req) (username old) (username new) /\
         overwritten (b_bio req) (bio old) (bio new) /\
         replaced env (file req) "profile-images" (u_imageUrl old) (u_imageUrl new) /\
         u_updatedAt new = now req /\
         clerkId new = clerkId old /\ email new = email old /\
         u_createdAt new = u_createdAt old /\
         stories out.2 = stories db)).
  { intros img Himg _.
    destruct (findOne_clerkId (users db) (p_clerkId req)) as [[id old]|] eqn:Hf;
      [|by split].
    destruct (save_user _ _ _) as [us|] eqn:Hsave; [|by split].
    apply save_user_Some in Hsave as ->. simpl.
    split; [done|]. intros _.
    eexists id, old, _. split; [done|]. split; [reflexivity|]. simpl.
    split_and!; try apply or_str_overwritten; try done.
    unfold replaced in *. destruct (file req) as [f|].
    - destruct Himg as [[url ->] Hup]. split; [by eexists | done].
    - by subst img. }
  destruct (upload_field env (file req) "profile-images" None) as [img|] eqn:Hup.
  2:{ split; [|by split]. intros _ _ _ Hfile. rewrite Hfile in Hup. done. }
  apply upload_field_replaced in Hup.
  destruct (Js.truthy (b_username req)) eqn:Hn; simpl.
  { split; [done|]. apply Hrun; [done | by left]. }
  destruct (Js.truthy (b_bio req)) eqn:Hb; simpl.
  { split; [done|]. apply Hrun; [done | by right; left]. }
  destruct (file req) as [f|] eqn:Hfile.
  - rewrite bool_decide_eq_true_2 by (by eexists). simpl.
    split; [done|]. apply Hrun; [done|]. right; right. by eexists.
  - rewrite bool_decide_eq_false_2 by (by intros [? ?]). simpl.
    by split_and!.
Qed.

Lemma update_profile_outcome_witness :
  let req :=
    mkRequest (Some "u2") (Some (2%N, bob)) 0 0 "u2" None None None
      (Some "robert") (Some "") no_files None 5000 100 in
  req_user req = Some (2%N, bob) /\
  (update_user_handler sample_env req sample_db2).1
  = mkResponse 200 (JUser (mkUser "u2" "robert" None None "" 0 5000)).
Proof.
  intros req. split; [reflexivity|].
  destruct (update_profile_outcome sample_env req sample_db2 2%N bob eq_refl)
    as (_ & _ & _ & Hok).
  destruct Hok as (id & old & new & _ & Hout & _); [by vm_compute|].
  by vm_compute.
Defined.




Lemma update_user_ok env req db :
  status (update_user_handler env req db).1 = 200 ->
  exists id old new,
    findOne_clerkId (users db) (p_clerkId req) = Some (id, old) /\
    (update_user_handler env req db).2 = set_users db (<[id := new]> (users db)) /\
    username new = Js.or_str (b_username req) (username old).
Proof.
  unfold update_user_handler. handler_branches; simpl;
    try (intros Hst; discriminate Hst).
  all: intros _; subst.
  all: match goal with H : save_user _ _ _ = Some _ |- _ =>
         apply save_user_Some in H as -> end.
  all: by eexists _, _, _.
Qed.

(** X20: a rename shows in every listing at once, although no story is
    rewritten. After a profile update that set a new non-empty username,
    the user document found under the Clerk id of the request carries that
    name, and [GET /api/stories] gives it as [author] of each story of
    that user and as [username] of each of that user's comments, while
    the stories stored, with their old author snapshots, are as before. *)
Theorem rename_shows_in_listing env req req2 db n :
  b_username req = Some n -> n ≠ "" ->
  status (update_user_handler env req db).1 = 200 ->
  let db' := (update_user_handler env req db).2 in
  exists id old new l,
    findOne_clerkId (users db) (p_clerkId req) = Some (id, old) /\
    users db' !! id = Some new /\ username new = n /\
    stories db' = stories db /\
    list_handler req2 db' = (mkResponse 200 (JStories l), db') /\
    forall j,
      j ∈ l ->
      (authorId (j_doc j) = id -> author (j_doc j) = n) /\
      (forall c, c ∈ comments (j_doc j) -> userId c = id -> c_username c = n).
Proof.
  intros Hn Hne Hok db'.
  destruct (update_user_ok env req db Hok) as (id & old & new & Hf & Hdb' & Hname).
  subst db'. rewrite Hdb'.
  assert (Hnew : username new = n).
  { rewrite Hname, Hn. simpl. by destruct (String.eqb_spec n ""). }
  exists id, old, new. eexists. split; [exact Hf|].
  split; [simpl; apply lookup_insert_eq|]. split; [exact Hnew|].
  split; [done|]. split; [reflexivity|].
  intros j Hj. unfold format_all in Hj.
  apply list_elem_of_fmap in Hj as ([sid s] & -> & _). simpl. split.
  - intros ->. by rewrite lookup_insert_eq.
  - intros c Hc Hid. apply list_elem_of_fmap in Hc as (c0 & -> & _).
    simpl in *. rewrite Hid. by rewrite lookup_insert_eq.
Qed.

Lemma rename_shows_in_listing_witness :
  let req :=
    mkRequest (Some "u2") (Some (2%N, bob)) 0 0 "u2" None None None
      (Some "robert") None no_files None 5000 100 in
  let db' := (update_user_handler sample_env req sample_db2).2 in
  exists new l,
    users db' !! 2%N = Some new /\ username new = "robert" /\
    list_handler req db' = (mkResponse 200 (JStories l), db') /\
    (author ∘ j_doc) <$> l = ["robert"; "alice"].
Proof.
  intros req db'. subst db'.
  destruct (rename_shows_in_listing sample_env req req sample_db2 "robert")
    as (id & old & new & l & Hf & Hnew & Hname & _ & Hl & _);
    [reflexivity | discriminate | by vm_compute |].
  assert (Hid : id = 2%N).
  { assert (Hf' : fst <$> findOne_clerkId (users sample_db2) (p_clerkId req)
                  = Some id) by by rewrite Hf.
    vm_compute in Hf'. by injection Hf' as <-. }
  subst id. exists new, l. split; [exact Hnew|]. split; [exact Hname|].
  split; [exact Hl|].
  assert (Hl' : (list_handler req (update_user_handler sample_env req sample_db2).2).1
                = mkResponse 200 (JStories l)) by by rewrite Hl.
  vm_compute in Hl'. injection Hl' as <-. reflexivity.
Defined.

(** ** The progress router *)

Section ProgressFacts.

Context {V : Type}.

Implicit Types (coll : list (Progress.Doc V)) (d : Progress.Doc V).

Lemma findOne_inserted uid sid coll i d d' :
  Progress.findOne uid sid coll = Some (i, d) ->
  Progress.userId d' = uid -> Progress.storyId d' = sid ->
  Progress.findOne uid sid (<[i := d']> coll) = Some (i, d').
Proof.
  unfold Progress.findOne. intros Hfind Hu Hs.
  apply list_find_Some in Hfind as (Hi & _ & Hleast).
  apply list_find_Some. split; [|split].
  - apply list_lookup_insert_eq. by eapply lookup_lt_Some.
  - done.
  - intros j y Hj Hlt. rewrite list_lookup_insert_ne in Hj by lia.
    by eapply Hleast.
Qed.

Lemma findOne_pushed uid sid coll d' :
  Progress.findOne uid sid coll = None ->
  Progress.userId d' = uid -> Progress.storyId d' = sid ->
  Progress.findOne uid sid (coll ++ [d'])%list = Some (length coll, d').
Proof.
  unfold Progress.findOne. intros Hnone Hu Hs.
  apply list_find_app_Some. right. split; [lia|]. split; [done|].
  rewrite Nat.sub_diag. simpl. by rewrite decide_True.
Qed.

(** X21: [POST /] of the progress router is an upsert on the first
    document of the caller for the story. When there is one, that
    document, in its place, gets the submitted value and the clock while
    keeping its [_id]; when there is none, one document is appended; in
    both cases every other document is as before and a lookup for the pair
    now finds the document that was answered, holding the submitted
    value. The only failure is a new document whose [_id] is taken, and it
    writes nothing. *)
Theorem progress_post_upserts uid sid (v : V) now nid coll :
  let out := Progress.post_handler uid sid v now nid coll in
  (out.1 = Progress.ServerError ->
     out.2 = coll /\ Progress.findOne uid sid coll = None /\
     nid ∈ Progress._id <$> coll) /\
  (out.1 ≠ Progress.ServerError ->
     exists i d,
       out.1 = Progress.Json d /\
       Progress.findOne uid sid out.2 = Some (i, d) /\
       Progress.userId d = uid /\ Progress.storyId d = sid /\
       Progress.progress d = v /\
       (forall j, j ≠ i -> out.2 !! j = coll !! j) /\
       match Progress.findOne uid sid coll with
       | Some (i0, d0) =>
         i = i0 /\ Progress._id d = Progress._id d0 /\
         Progress.updatedAt d = now /\ length out.2 = length coll
       | None =>
         i = length coll /\ Progress._id d = nid /\
         length out.2 = S (length coll)
       end).
Proof.
  unfold Progress.post_handler.
  destruct (Progress.findOne uid sid coll) as [[i0 d0]|] eqn:Hfind.
  - simpl. split; [done|]. intros _.
    assert (Hpair : Progress.userId d0 = uid /\ Progress.storyId d0 = sid).
    { unfold Progress.findOne in Hfind.
      by apply list_find_Some in Hfind as (_ & ? & _). }
    destruct Hpair as [Hu Hs].
    eexists i0, _. split; [reflexivity|]. split.
    { by apply (findOne_inserted uid sid coll i0 d0). }
    simpl. split_and!; try done.
    + intros j Hne. by apply list_lookup_insert_ne.
    + apply length_insert.
  - destruct (bool_decide (nid ∈ Progress._id <$> coll)) eqn:Hid; simpl.
    + apply bool_decide_eq_true in Hid. split; [done|]. by intros [].
    + split; [done|]. intros _. unfold Js.push.
      eexists (length coll), _. split; [reflexivity|]. split.
      { by apply findOne_pushed. }
      simpl. split_and!; try done.
      * intros j Hne. destruct (decide (j < length coll)%nat) as [Hlt|Hge].
        -- by rewrite lookup_app_l.
        -- rewrite !lookup_ge_None_2; [done|lia|].
           rewrite length_app. simpl. lia.
      * rewrite length_app. simpl. lia.
Qed.

Lemma progress_post_outcome_aux uid sid (v : V) now nid coll :
  (Progress.post_handler uid sid v now nid coll).1 ≠ Progress.ServerError ->
  exists i d,
    Progress.findOne uid sid (Progress.post_handler uid sid v now nid coll).2
      = Some (i, d) /\
    Progress.progress d = v.
Proof.
  unfold Progress.post_handler.
  destruct (Progress.findOne uid sid coll) as [[i0 d0]|] eqn:Hfind.
  - intros _. simpl.
    assert (Hpair : Progress.userId d0 = uid /\ Progress.storyId d0 = sid).
    { unfold Progress.findOne in Hfind.
      by apply list_find_Some in Hfind as (_ & ? & _). }
    destruct Hpair as [Hu Hs].
    eexists i0, _. split; [by apply (findOne_inserted uid sid coll i0 d0)|done].
  - destruct (bool_decide _); simpl; [done|]. intros _.
    eexists _, _. split; [by apply findOne_pushed | done].
Qed.

Lemma same_pair_same_doc coll d1 d2 :
  Progress.one_per_pair coll ->
  d1 ∈ coll -> d2 ∈ coll ->
  Progress.userId d1 = Progress.userId d2 ->
  Progress.storyId d1 = Progress.storyId d2 ->
  d1 = d2.
Proof.
  unfold Progress.one_per_pair. induction coll as [|d coll IH]; intros Hnd H1 H2 Hu Hs.
  { by apply elem_of_nil in H1. }
  rewrite fmap_cons in Hnd. apply NoDup_cons in Hnd as [Hd Hnd].
  apply elem_of_cons in H1 as [->|H1]; apply elem_of_cons in H2 as [->|H2];
    [done| | |by apply IH].
  - exfalso. apply Hd. apply list_elem_of_fmap. exists d2. by rewrite Hu, Hs.
  - exfalso. apply Hd. apply list_elem_of_fmap. exists d1. by rewrite Hu, Hs.
Qed.

Lemma post_keeps_one_per_pair uid sid (v : V) now nid coll :
  Progress.one_per_pair coll ->
  Progress.one_per_pair (Progress.post_handler uid sid v now nid coll).2.
Proof.
  unfold Progress.one_per_pair, Progress.post_handler. intros Hnd.
  destruct (Progress.findOne uid sid coll) as [[i0 d0]|] eqn:Hfind.
  - simpl. rewrite list_fmap_insert. simpl.
    rewrite list_insert_id; [done|].
    unfold Progress.findOne in Hfind.
    apply list_find_Some in Hfind as (Hi & _ & _).
    by rewrite list_lookup_fmap, Hi.
  - destruct (bool_decide _); [done|]. simpl. unfold Js.push.
    rewrite fmap_app. apply NoDup_app. split_and!; [done| |apply NoDup_singleton].
    intros p (d & -> & Hin)%list_elem_of_fmap Hp.
    apply list_elem_of_singleton in Hp. simpl in Hp. injection Hp as Hu Hs.
    unfold Progress.findOne in Hfind. apply list_find_None in Hfind.
    rewrite Forall_forall in Hfind. by apply (Hfind d Hin).
Qed.

(** X22: the progress router keeps one document per user and story, and
    then a report is what the next read shows. If no two documents share
    user and story before a [POST /], none do after it; and when the
    report was stored, the list [GET /:userId] answers for the reporting
    user holds exactly one document for that story, with the reported
    value. *)
Theorem progress_report_then_read uid sid (v : V) now nid coll :
  Progress.one_per_pair coll ->
  let out := Progress.post_handler uid sid v now nid coll in
  Progress.one_per_pair out.2 /\
  (out.1 ≠ Progress.ServerError ->
     exists l d,
       Progress.get_handler uid out.2 = (Progress.JsonList l, out.2) /\
       d ∈ l /\ Progress.storyId d = sid /\ Progress.progress d = v /\
       (forall d', d' ∈ l -> Progress.storyId d' = sid -> d' = d)).
Proof.
  intros Hone out.
  pose proof (post_keeps_one_per_pair uid sid v now nid coll Hone) as Hone'.
  split; [exact Hone'|]. intros Hok.
  destruct (progress_post_outcome_aux uid sid v now nid coll Hok)
    as (i & d & Hfind & Hv).
  unfold Progress.findOne in Hfind.
  apply list_find_Some in Hfind as (Hi & [Hu Hs] & _).
  apply list_elem_of_lookup_2 in Hi.
  eexists _, d. split; [reflexivity|].
  unfold Progress.find_user. split_and!; [|done..|].
  - apply list_elem_of_filter. by split.
  - intros d' [Hu' Hin']%list_elem_of_filter Hs'.
    apply (same_pair_same_doc _ d' d Hone'); [exact Hin' | exact Hi | ..];
      congruence.
Qed.

End ProgressFacts.

Lemma progress_report_then_read_witness :
  let coll := [Progress.mkDoc 1 "u1" "s1" 10 100; Progress.mkDoc 2 "u1" "s2" 20 200] in
  Progress.one_per_pair coll /\
  (Progress.post_handler "u1" "s2" 55 300 3 coll).2
  = [Progress.mkDoc 1 "u1" "s1" 10 100; Progress.mkDoc 2 "u1" "s2" 55 300] /\
  Progress.one_per_pair (Progress.post_handler "u1" "s2" 55 300 3 coll).2.
Proof.
  intros coll.
  assert (Hone : Progress.one_per_pair coll).
  { unfold Progress.one_per_pair. apply (bool_decide_unpack _). by vm_compute. }
  split; [exact Hone|]. split; [reflexivity|].
  exact (proj1 (progress_report_then_read "u1" "s2" 55 300 3%N coll Hone)).
Defined.

(** ** More on how the routes compose *)

(** X23: a deleted story is gone for every route. After the owner's
    delete was answered 204, an update, a delete, a like, a bookmark and a
    delete-comment on the same id by a synced caller are answered 404, a
    comment with content is answered 404 too, and none of them writes. *)
Theorem deleted_story_is_gone env req db req2 a caller :
  status (delete_handler req db).1 = 204 ->
  p_id req2 = p_id req ->
  auth_userId req2 = Some a ->
  req_user req2 = Some caller ->
  let db' := (delete_handler req db).2 in
  stories db' !! p_id req = None /\
  update_handler env req2 db' = (mkResponse 404 (JError "Story not found"), db') /\
  delete_handler req2 db' = (mkResponse 404 (JError "Story not found"), db') /\
  like_handler req2 db' = (mkResponse 404 (JError "Story not found"), db') /\
  bookmark_handler req2 db' = (mkResponse 404 (JError "Story not found"), db') /\
  delete_comment_handler req2 db'
    = (mkResponse 404 (JError "Story not found."), db') /\
  (Js.truthy (b_content req2) = true ->
   comment_handler req2 db' = (mkResponse 404 (JError "Story not found"), db')).
Proof.
  intros Hok Hid Ha Hu db'.
  assert (Hgone : stories db' !! p_id req2 = None).
  { subst db'. rewrite Hid. revert Hok. unfold delete_handler.
    destruct (stories db !! p_id req) as [s|] eqn:Hs; [|done].
    destruct (req_user req) as [[uid u]|]; [|done].
    destruct (N.eqb (authorId s) uid); simpl; [|done].
    intros _. apply lookup_delete_eq. }
  destruct caller as [uid u].
  split; [by rewrite <- Hid|].
  unfold update_handler, delete_handler, like_handler, bookmark_handler,
    delete_comment_handler, comment_handler.
  rewrite Hgone, Ha, Hu. split_and!; try done.
  by intros ->.
Qed.

Lemma deleted_story_is_gone_witness :
  let req := sample_request (Some "u1") (Some (1%N, alice)) 7 in
  let req2 := sample_request (Some "u2") (Some (2%N, bob)) 7 in
  status (delete_handler req sample_db2).1 = 204 /\
  like_handler req2 (delete_handler req sample_db2).2
  = (mkResponse 404 (JError "Story not found"), (delete_handler req sample_db2).2).
Proof.
  intros req req2.
  assert (Hok : status (delete_handler req sample_db2).1 = 204) by by vm_compute.
  split; [exact Hok|].
  exact (proj1 (proj2 (proj2 (proj2
           (deleted_story_is_gone sample_env req sample_db2 req2 "u2" (2%N, bob)
              Hok eq_refl eq_refl eq_refl))))).
Defined.

Lemma create_ok env req db :
  status (create_handler env req db).1 = 201 ->
  exists s,
    stories db !! new_id req = None /\
    (create_handler env req db).2
      = set_stories db (<[new_id req := s]> (stories db)) /\
    createdAt s = now req.
Proof.
  unfold create_handler, send_story. handler_branches; simpl;
    try (intros Hst; discriminate Hst).
  all: intros _; by eexists.
Qed.

(** X24: a new story leads the listing. When a story is created at a
    clock value later than the creation time of every stored story, the
    next [GET /api/stories] has it in first place. *)
Theorem created_story_is_listed_first env req req2 db :
  status (create_handler env req db).1 = 201 ->
  (forall id s, stories db !! id = Some s -> createdAt s < now req) ->
  let db' := (create_handler env req db).2 in
  exists j rest,
    list_handler req2 db' = (mkResponse 200 (JStories (j :: rest)), db') /\
    j_id j = new_id req.
Proof.
  intros Hok Hlater db'.
  destruct (create_ok env req db Hok) as (s & Hfree & Hdb' & Hnow).
  subst db'. rewrite Hdb'. clear Hdb'.
  set (m := <[new_id req := s]> (stories db)).
  destruct (listing_spec (users db) m (fun _ => True) (map_to_list m))
    as (Hsorted & _ & Hin).
  { apply NoDup_map_to_list. }
  { intros [id t]. rewrite elem_of_map_to_list. simpl. tauto. }
  unfold list_handler. simpl. fold m.
  set (l := format_all (users db) (sort_createdAt_desc (map_to_list m))) in *.
  assert (Hnew : format_story (users db) (new_id req) s ∈ l).
  { apply Hin. exists s. simpl. subst m. by rewrite lookup_insert_eq. }
  destruct l as [|j rest]; [by apply elem_of_nil in Hnew|].
  exists j, rest. split; [done|].
  destruct (Hin j) as [Hj _]. destruct (Hj ltac:(left)) as (t & Ht & _ & Hjt).
  destruct (decide (j_id j = new_id req)) as [|Hne]; [done|]. exfalso.
  subst m. rewrite lookup_insert_ne in Ht by done.
  specialize (Hlater _ _ Ht).
  apply elem_of_cons in Hnew as [Hnew|Hnew].
  - apply Hne. by rewrite <- Hnew.
  - unfold json_newest_first in Hsorted.
    apply StronglySorted_inv in Hsorted as [_ Hall].
    rewrite Forall_forall in Hall. specialize (Hall _ Hnew).
    simpl in Hall. rewrite Hjt in Hall. simpl in Hall. lia.
Qed.

Lemma created_story_is_listed_first_witness :
  let req :=
    mkRequest (Some "u2") (Some (2%N, bob)) 0 0 "u2" (Some "N") (Some "C")
      (Some "Epic") None None no_files None 1000 100 in
  exists j rest,
    list_handler req (create_handler sample_env req sample_db2).2
    = (mkResponse 200 (JStories (j :: rest)),
       (create_handler sample_env req sample_db2).2) /\
    j_id j = 100%N.
Proof.
  intros req.
  apply (created_story_is_listed_first sample_env req req sample_db2).
  - by vm_compute.
  - intros id s Hs.
    destruct (decide (id = 7%N)) as [->|H7];
      [vm_compute in Hs; injection Hs as <-; reflexivity|].
    destruct (decide (id = 8%N)) as [->|H8];
      [vm_compute in Hs; injection Hs as <-; reflexivity|].
    unfold sample_db2 in Hs. simpl in Hs.
    rewrite lookup_insert_ne in Hs by done.
    rewrite lookup_insert_ne in Hs by done. done.
Defined.

(** X25: the sync overwrites the local username on every request. For
    a user that already has a document, the username after a successful
    sync is the provider's username when that is a non-empty string and
    the provider's first and last name joined by a space otherwise,
    whatever the stored username was; a name set through the profile
    update is therefore replaced at the caller's next authenticated
    request. *)
Theorem sync_overwrites_local_username env req db req' db' :
  syncUser env req db = inr (req', db') ->
  exists cu id user,
    (exists a, auth_userId req = Some a /\ getUser env a = Got cu) /\
    req_user req' = Some (id, user) /\
    users db' !! id = Some user /\
    username user =
      (if Js.truthy (cu_username cu) then Js.to_string (cu_username cu)
       else Js.to_string (firstName cu) ++ " " ++ Js.to_string (lastName cu)).
Proof.
  intros H.
  destruct (syncUser_ok env req db req' db' H)
    as (a & cu & id & user & Ha & _ & Hget & -> & -> & Hcase).
  exists cu, id, user. split; [by exists a|]. split; [done|].
  simpl. split; [apply lookup_insert_eq|].
  destruct (findOne_clerkId (users db) (cu_id cu)) as [[id0 old]|].
  - destruct Hcase as [_ ->]. simpl. apply synced_username_cases.
  - destruct Hcase as (_ & _ & ->). simpl. apply synced_username_cases.
Qed.

Lemma sync_overwrites_local_username_witness :
  let env := clerk_env (mkClerkUser "u2" (Some "bob") None None [] None) in
  let rename :=
    mkRequest (Some "u2") (Some (2%N, bob)) 0 0 "u2" None None None
      (Some "robert") None no_files None 5000 100 in
  let db1 := (update_user_handler env rename sample_db2).2 in
  username <$> users db1 !! 2%N = Some "robert" /\
  exists req' db2,
    syncUser env (sample_request (Some "u2") None 7) db1 = inr (req', db2) /\
    username <$> users db2 !! 2%N = Some "bob".
Proof.
  intros env rename db1. split; [by vm_compute|].
  destruct (syncUser env (sample_request (Some "u2") None 7) db1)
    as [res|[req' db2]] eqn:Hs; [by vm_compute in Hs|].
  exists req', db2. split; [reflexivity|].
  destruct (sync_overwrites_local_username _ _ _ _ _ Hs)
    as (cu & id & user & (a & Ha & Hget) & Hu & Hstored & Hname).
  injection Ha as <-. vm_compute in Hget. injection Hget as <-.
  assert (id = 2%N) as ->.
  { assert (Hr : req_user <$> (match syncUser env (sample_request (Some "u2") None 7) db1
                               with inr (r, _) => Some r | inl _ => None end)
                 = Some (Some (id, user))) by (rewrite Hs; simpl; by rewrite Hu).
    vm_compute in Hr. by injection Hr as <- _. }
  rewrite Hstored. simpl. by rewrite Hname.
Defined.

Lemma findOne_clerkId_found us id u :
  us !! id = Some u ->
  exists id' u', findOne_clerkId us (clerkId u) = Some (id', u').
Proof.
  intros Hu. unfold findOne_clerkId.
  destruct (filter _ (map_to_list us)) as [|[id' u'] rest] eqn:Hf.
  - exfalso.
    assert (Hin : (id, u) ∈ filter (fun p : N * User => clerkId p.2 = clerkId u)
                             (map_to_list us)).
    { apply list_elem_of_filter. split; [done | by apply elem_of_map_to_list]. }
    rewrite Hf in Hin. by apply elem_of_nil in Hin.
  - by exists id', u'.
Qed.

(** X26: [GET /api/users/:clerkId] writes nothing, answers 404 exactly
    when no stored user carries the Clerk id, and otherwise answers a
    stored user that carries it; in particular, once a sync has let a
    request of a Clerk user through, the profile of that Clerk id is
    found. *)
Theorem get_profile_outcome req db :
  (get_user_handler req db).2 = db /\
  (status (get_user_handler req db).1 = 404 <->
     forall id u, users db !! id = Some u -> clerkId u ≠ p_clerkId req) /\
  (status (get_user_handler req db).1 ≠ 404 ->
     exists id u,
       get_user_handler req db = (mkResponse 200 (JUser u), db) /\
       users db !! id = Some u /\ clerkId u = p_clerkId req) /\
  (forall env req0 db0 req1,
     syncUser env req0 db0 = inr (req1, db) ->
     (forall id u, req_user req1 = Some (id, u) -> p_clerkId req = clerkId u) ->
     status (get_user_handler req db).1 = 200).
Proof.
  unfold get_user_handler.
  destruct (findOne_clerkId (users db) (p_clerkId req)) as [[id u]|] eqn:Hf; simpl.
  - destruct (findOne_clerkId_Some _ _ _ _ Hf) as [Hu Hc].
    split; [done|]. split; [|split].
    + split; [done|]. intros Hnone. by destruct (Hnone id u Hu).
    + intros _. by exists id, u.
    + done.
  - split; [done|]. split; [|split].
    + split; [|done]. intros _. by apply findOne_clerkId_None.
    + done.
    + intros env req0 db0 req1 Hs Hparam. exfalso.
      destruct (syncUser_ok _ _ _ _ _ Hs)
        as (a & cu & id & user & _ & _ & _ & -> & Hdb & _).
      specialize (Hparam id user eq_refl).
      assert (Hstored : users db !! id = Some user).
      { rewrite Hdb. simpl. apply lookup_insert_eq. }
      destruct (findOne_clerkId_found _ _ _ Hstored) as (id' & u' & Hfound).
      rewrite <- Hparam in Hfound. congruence.
Qed.
